(** * drumanalytics: the S3 result Downloader and the pandas Loader

    A shallow embedding of the two batch scripts

    - [backend/analysis/fetch_s3_results.py]      (the Downloader)
    - [backend/analysis/load_analysis_to_pandas.py] (the Loader)

    Both scripts run top to bottom once.  They are embedded as programs
    of a small state-and-exception monad over a world that holds the
    local file system and a chronological log of everything the script
    does (console output, storage calls, directory and file creation).
    The object store is a read-only service the programs query. *)

From Stdlib Require Import ZArith Ascii ssreflect.
From stdpp Require Import base gmap strings list.

#[local] Set Warnings "-rewrite-rw,-clear-no-such-hyp".

(** ** Python text: the [str] methods and [os.path] functions used *)

Module Str.

(** [s[n:]] *)
Fixpoint drop (n : nat) (s : string) : string :=
  match n, s with
  | O, _ => s
  | S _, EmptyString => EmptyString
  | S n', String _ s' => drop n' s'
  end.

(** [s.endswith(suffix)]: the last [len(suffix)] characters of [s]
    are [suffix]. *)
Definition endswith (s suffix : string) : bool :=
  bool_decide (String.length suffix ≤ String.length s)%nat
  && bool_decide
       (drop (String.length s - String.length suffix) s = suffix).

(** [s.startswith(prefix)] *)
Fixpoint startswith (s prefix : string) : bool :=
  match prefix, s with
  | EmptyString, _ => true
  | String _ _, EmptyString => false
  | String a p', String b s' => Ascii.eqb a b && startswith s' p'
  end.

(** [s.rfind(c)] for a one-character [c], scanning from index [i]:
    the highest index holding [c], or [-1]. *)
Fixpoint rfind_from (i : Z) (s : string) (c : ascii) : Z :=
  match s with
  | EmptyString => (-1)%Z
  | String a s' =>
      let r := rfind_from (i + 1)%Z s' c in
      if (0 <=? r)%Z then r else if Ascii.eqb a c then i else (-1)%Z
  end.

Definition rfind (s : string) (c : ascii) : Z := rfind_from 0 s c.

(** [c in s] for a one-character [c]. *)
Fixpoint contains (c : ascii) (s : string) : bool :=
  match s with
  | EmptyString => false
  | String a s' => Ascii.eqb a c || contains c s'
  end.

(** The last character of a non-empty text. *)
Fixpoint last (s : string) : option ascii :=
  match s with
  | EmptyString => None
  | String a EmptyString => Some a
  | String _ s' => last s'
  end.

End Str.

Module OsPath.

Definition sep : string := "/".

(** [posixpath.basename]: [i = p.rfind(sep) + 1; return p[i:]] *)
Definition basename (p : string) : string :=
  let i := (Str.rfind p "/"%char + 1)%Z in
  Str.drop (Z.to_nat i) p.

(** [posixpath.join(a, b)] with one component [b]. *)
Definition join (a b : string) : string :=
  if Str.startswith b sep then b
  else if bool_decide (a = "") || Str.endswith a sep then a +:+ b
  else a +:+ sep +:+ b.

End OsPath.

(** ** Python values *)

(** What [json.loads] can return, plus the [datetime] that the listing
    gives as [LastModified].  A [datetime] is kept as its POSIX time, a
    float as its bit pattern: the scripts only move them around. *)
#[local] Unset Elimination Schemes.
Inductive pyval : Type :=
  | PNone
  | PBool (b : bool)
  | PInt (n : Z)
  | PFloat (bits : Z)
  | PStr (s : string)
  | PList (items : list pyval)
  | PDict (items : list (string * pyval))
  | PDatetime (t : Z).
#[local] Set Elimination Schemes.

(** A [dict] with text keys: insertion-ordered, one entry per key. *)
Abbreviation dict := (list (string * pyval)).

Module Dict.

(** [k in d] / [d[k]] *)
Fixpoint get (k : string) (d : dict) : option pyval :=
  match d with
  | [] => None
  | (k', v) :: d' => if bool_decide (k' = k) then Some v else get k d'
  end.

(** [d[k] = v]: replaces the value in place when [k] is present,
    adds the entry at the end otherwise. *)
Fixpoint setitem (k : string) (v : pyval) (d : dict) : dict :=
  match d with
  | [] => [(k, v)]
  | (k', v') :: d' =>
      if bool_decide (k' = k) then (k, v) :: d'
      else (k', v') :: setitem k v d'
  end.

(** [list(d.keys())] *)
Definition keys (d : dict) : list string := d.*1.

End Dict.

(** ** pandas: the table built from a list of records *)

(** A cell holds a value, or [NaN] where the record has no such field. *)
Inductive cell : Type :=
  | NaN
  | Val (v : pyval).

Record DataFrame : Type := mkDataFrame {
  columns : list string;
  values : list (list cell)
}.

Module Pd.

(** One step of the first-seen union of the records' keys. *)
Definition add_unseen (cols : list string) (k : string) : list string :=
  if bool_decide (k ∈ cols) then cols else cols ++ [k].

(** The keys of all the records, each once, in order of first
    appearance. *)
Definition union_of_keys (data : list dict) : list string :=
  foldl add_unseen [] (data ≫= Dict.keys).

Definition cell_of (row : dict) (col : string) : cell :=
  match Dict.get col row with
  | Some v => Val v
  | None => NaN
  end.

(** Modelled from the spec: [pd.DataFrame(data)] for a list of
    records, which the pandas library (not part of this repository)
    provides: columns = union of all keys seen across all records, one
    row per record, a record lacking a column yields a missing cell. *)
Definition DataFrame_of (data : list dict) : DataFrame :=
  let cols := union_of_keys data in
  {| columns := cols;
     values := (λ row, cell_of row <$> cols) <$> data |}.

(** [len(df)] *)
Definition len (df : DataFrame) : nat := length (values df).

(** [df.head()]: the first five rows. *)
Definition head (df : DataFrame) : DataFrame :=
  {| columns := columns df; values := take 5 (values df) |}.

(** The position of a column. *)
Fixpoint index_of (col : string) (cols : list string) : option nat :=
  match cols with
  | [] => None
  | c :: cols' =>
      if bool_decide (c = col) then Some O else S <$> index_of col cols'
  end.

(** [df.iloc[i][col]], when row [i] and column [col] exist. *)
Definition at_ (df : DataFrame) (i : nat) (col : string) : option cell :=
  row ← values df !! i;
  j ← index_of col (columns df);
  row !! j.

(** [pd.isna] on a cell: [NaN] and [None] count as missing. *)
Definition isna (c : cell) : bool :=
  match c with
  | NaN | Val PNone => true
  | Val _ => false
  end.

(** A cell that shows as empty: missing, or the empty text. *)
Definition is_empty (c : cell) : bool :=
  match c with
  | Val (PStr s) => bool_decide (s = "")
  | _ => isna c
  end.

End Pd.

(** ** The world the scripts act on *)

(** An entry of [response["Contents"]]. *)
Record s3_object : Type := mkObject {
  Key : string;
  LastModified : Z
}.

(** The response of [list_objects_v2]: the ["Contents"] field is absent
    when nothing matches the prefix. *)
Record response : Type := mkResponse {
  Contents : option (list s3_object)
}.

(** The object store as the client sees it.  [None] stands for a call
    that raises (transport, authorization, missing key). *)
Record s3_service : Type := mkService {
  list_objects_v2 : string → string → option response;
  get_object : string → string → option string
}.

Inductive s3_call : Type :=
  | ListObjectsV2 (Bucket Prefix : string)
  | GetObject (Bucket Key : string)
  | DownloadFile (Bucket Key Filename : string).

(** What [print] is given. *)
Inductive printed : Type :=
  | Text (s : string)
  | Frame (df : DataFrame)
  | Index (cols : list string).

Inductive event : Type :=
  | Makedirs (path : string)
  | S3 (c : s3_call)
  | Print (p : printed)
  | Write (path : string).

(** The content of a local file: the bytes of a stored object, or a
    table written by [to_csv(..., index=False)]. *)
Inductive content : Type :=
  | Bytes (body : string)
  | CsvNoIndex (df : DataFrame).

Record filesystem : Type := mkFs {
  dirs : gset string;
  files : gmap string content
}.

Record world : Type := mkWorld {
  log : list event;
  fs : filesystem
}.

(** A script starts with an empty log on the file system it finds. *)
Definition boot (fs0 : filesystem) : world := {| log := []; fs := fs0 |}.

(** Console output, in order. *)
Definition stdout (w : world) : list printed :=
  omap (λ e, match e with Print p => Some p | _ => None end) (log w).

(** The lines of plain text among the console output. *)
Definition stdout_text (w : world) : list string :=
  omap (λ e, match e with Print (Text s) => Some s | _ => None end) (log w).

(** The local files written, in order. *)
Definition written (w : world) : list string :=
  omap (λ e, match e with Write path => Some path | _ => None end) (log w).

(** Storage calls, in order. *)
Definition s3_calls (w : world) : list s3_call :=
  omap (λ e, match e with S3 c => Some c | _ => None end) (log w).

(** ** Programs: state, exceptions and [exit()] *)

Inductive exn : Type :=
  | ClientError
  | JSONDecodeError
  | TypeError.

Inductive result (A : Type) : Type :=
  | Ok (a : A)
  | SystemExit (code : option Z)
  | Raised (e : exn).
Arguments Ok {A} a.
Arguments SystemExit {A} code.
Arguments Raised {A} e.

Definition prog (A : Type) : Type := world → result A * world.

#[global] Instance prog_ret : MRet prog := λ A a w, (Ok a, w).

#[global] Instance prog_bind : MBind prog := λ A B k m w,
  match m w with
  | (Ok a, w') => k a w'
  | (SystemExit c, w') => (SystemExit c, w')
  | (Raised e, w') => (Raised e, w')
  end.

Definition raise {A} (e : exn) : prog A := λ w, (Raised e, w).

(** [exit()]: raises [SystemExit(None)]. *)
Definition exit {A} : prog A := λ w, (SystemExit None, w).

Definition emit (e : event) : prog unit :=
  λ w, (Ok tt, {| log := log w ++ [e]; fs := fs w |}).

Definition print (p : printed) : prog unit := emit (Print p).

(** The exit status of the interpreter for a script that ends this way. *)
Definition exit_status {A} (r : result A) : Z :=
  match r with
  | Ok _ => 0%Z
  | SystemExit None => 0%Z
  | SystemExit (Some c) => c
  | Raised _ => 1%Z
  end.

(** [for x in l: acc = body(x, acc)], the loop variable [acc] standing for
    the state the loop body updates. *)
Fixpoint for_in {A S} (l : list A) (body : A → S → prog S) (acc : S)
  : prog S :=
  match l with
  | [] => mret acc
  | x :: l' => acc' ← body x acc; for_in l' body acc'
  end.

(** [os.makedirs(path, exist_ok=True)]: the directory exists afterwards,
    whether or not it did before.  Failures of the local file system
    (permissions, a full disk) are outside the model. *)
Definition makedirs (path : string) : prog unit :=
  λ w, (Ok tt,
        {| log := log w ++ [Makedirs path];
           fs := {| dirs := {[path]} ∪ dirs (fs w); files := files (fs w) |} |}).

(** Creating or replacing the local file [path]. *)
Definition write_file (path : string) (c : content) : prog unit :=
  λ w, (Ok tt,
        {| log := log w ++ [Write path];
           fs := {| dirs := dirs (fs w); files := <[path := c]> (files (fs w)) |} |}).

Section Client.

Variable s3 : s3_service.

Definition s3_list_objects_v2 (Bucket Prefix : string) : prog response :=
  emit (S3 (ListObjectsV2 Bucket Prefix));;
  match list_objects_v2 s3 Bucket Prefix with
  | Some r => mret r
  | None => raise ClientError
  end.

(** [s3.get_object(Bucket=..., Key=...)["Body"].read()] *)
Definition s3_get_object (Bucket Key : string) : prog string :=
  emit (S3 (GetObject Bucket Key));;
  match get_object s3 Bucket Key with
  | Some body => mret body
  | None => raise ClientError
  end.

(** [s3.download_file(Bucket, Key, Filename)]: fetches the object and
    writes its bytes to the local file, replacing what is there. *)
Definition s3_download_file (Bucket Key Filename : string) : prog unit :=
  emit (S3 (DownloadFile Bucket Key Filename));;
  match get_object s3 Bucket Key with
  | Some body => write_file Filename (Bytes body)
  | None => raise ClientError
  end.

End Client.

(** [df.to_csv(path, index=False)] *)
Definition to_csv (df : DataFrame) (path : string) : prog unit :=
  write_file path (CsvNoIndex df).

(** ** The Downloader: [fetch_s3_results.py] *)

Module Downloader.

Definition BUCKET_NAME : string := "drumanalytics-uploads-nsteele".
Definition S3_PREFIX : string := "results/".
Definition LOCAL_OUTPUT_DIR : string := "downloaded_results".

(** [os.path.join(LOCAL_OUTPUT_DIR, os.path.basename(key))] *)
Definition local_filename (key : string) : string :=
  OsPath.join LOCAL_OUTPUT_DIR (OsPath.basename key).

Section Script.

Variable s3 : s3_service.

(** The body of [for obj in response["Contents"]]. *)
Definition loop_body (obj : s3_object) (_ : unit) : prog unit :=
  let key := Key obj in
  if Str.endswith key "/" then mret tt
  else
    print (Text ("Downloading " +:+ key +:+ " → " +:+ local_filename key));;
    s3_download_file s3 BUCKET_NAME key (local_filename key).

Definition fetch_s3_results : prog unit :=
  makedirs LOCAL_OUTPUT_DIR;;
  print (Text "Fetching list of analysis files from S3...");;
  response ← s3_list_objects_v2 s3 BUCKET_NAME S3_PREFIX;
  match Contents response with
  | None =>
      print (Text "❌ No analysis files found in S3.");;
      exit
  | Some contents =>
      for_in contents loop_body tt;;
      print (Text "✅ All analysis files downloaded successfully.")
  end.

End Script.

End Downloader.

(** ** The Loader: [load_analysis_to_pandas.py] *)

Module Loader.

Definition S3_BUCKET : string := "drumanalytics-uploads-nsteele".
Definition RESULTS_PREFIX : string := "results/".

Definition nl : string := String "010" "".

(** [obj[k] = v] on what [json.loads] returned: only a [dict] takes a
    text key; the updated [dict] is returned. *)
Definition setitem (obj : pyval) (k : string) (v : pyval) : prog dict :=
  match obj with
  | PDict d => mret (Dict.setitem k v d)
  | _ => raise TypeError
  end.

Section Script.

(** [json.loads]: [None] for a body that is not valid JSON. *)
Variable json_loads : string → option pyval.
Variable s3 : s3_service.

Definition loads (raw : string) : prog pyval :=
  match json_loads raw with
  | Some v => mret v
  | None => raise JSONDecodeError
  end.

(** The body of [for obj in response["Contents"]], on the list
    [analysis_rows]. *)
Definition loop_body (obj : s3_object) (analysis_rows : list dict)
  : prog (list dict) :=
  let key := Key obj in
  if negb (Str.endswith key ".json") then mret analysis_rows
  else
    print (Text ("Loading " +:+ key));;
    raw_json ← s3_get_object s3 S3_BUCKET key;
    analysis_data ← loads raw_json;
    analysis_data ← setitem analysis_data "s3_key" (PStr key);
    analysis_data ← setitem (PDict analysis_data) "analysis_timestamp"
                      (PDatetime (LastModified obj));
    mret (analysis_rows ++ [analysis_data]).

(** The whole script; it returns the table [df] it built. *)
Definition load_analysis_to_pandas : prog DataFrame :=
  print (Text "Fetching analysis files from S3...");;
  response ← s3_list_objects_v2 s3 S3_BUCKET RESULTS_PREFIX;
  match Contents response with
  | None =>
      print (Text "❌ No analysis files found.");;
      exit
  | Some contents =>
      analysis_rows ← for_in contents loop_body [];
      let df := Pd.DataFrame_of analysis_rows in
      print (Text (nl +:+ "✅ Loaded analysis data into pandas"));;
      print (Frame (Pd.head df));;
      print (Text (nl +:+ "Columns:"));;
      print (Index (columns df));;
      to_csv df "all_drum_analysis.csv";;
      print (Text (nl +:+ "Saved all_drum_analysis.csv"));;
      mret df
  end.

End Script.

End Loader.

(** ** Pure views of the two loops

    What each loop returns, logs and leaves on disk, as functions of the
    listing and the object store.  The lemmas [downloader_loop_run] and
    [loader_loop_run] below prove that the loops compute exactly these. *)

(** The listed objects the Loader takes: keys ending in [.json]. *)
Definition json_objects (contents : list s3_object) : list s3_object :=
  filter (λ o, Str.endswith (Key o) ".json" = true) contents.

(** The listed objects the Downloader takes: keys not ending in [/]. *)
Definition non_folders (contents : list s3_object) : list s3_object :=
  filter (λ o, Str.endswith (Key o) "/" = false) contents.

Section Views.

Variable json_loads : string → option pyval.
Variable s3 : s3_service.

(** The record one qualifying object turns into, or the exception that
    ends the run. *)
Definition record_of (obj : s3_object) : exn + dict :=
  match get_object s3 Loader.S3_BUCKET (Key obj) with
  | None => inl ClientError
  | Some raw_json =>
      match json_loads raw_json with
      | None => inl JSONDecodeError
      | Some (PDict d) =>
          inr (Dict.setitem "analysis_timestamp" (PDatetime (LastModified obj))
                 (Dict.setitem "s3_key" (PStr (Key obj)) d))
      | Some _ => inl TypeError
      end
  end.

Fixpoint records_of (qs : list s3_object) : exn + list dict :=
  match qs with
  | [] => inr []
  | o :: qs' =>
      match record_of o with
      | inl e => inl e
      | inr d =>
          match records_of qs' with
          | inl e => inl e
          | inr ds => inr (d :: ds)
          end
      end
  end.

Fixpoint loader_trace (qs : list s3_object) : list event :=
  match qs with
  | [] => []
  | o :: qs' =>
      Print (Text ("Loading " +:+ Key o))
      :: S3 (GetObject Loader.S3_BUCKET (Key o))
      :: match record_of o with
         | inl _ => []
         | inr _ => loader_trace qs'
         end
  end.

Fixpoint download_result (qs : list s3_object) : result unit :=
  match qs with
  | [] => Ok tt
  | o :: qs' =>
      match get_object s3 Downloader.BUCKET_NAME (Key o) with
      | None => Raised ClientError
      | Some _ => download_result qs'
      end
  end.

Fixpoint download_trace (qs : list s3_object) : list event :=
  match qs with
  | [] => []
  | o :: qs' =>
      Print (Text ("Downloading " +:+ Key o +:+ " → "
                   +:+ Downloader.local_filename (Key o)))
      :: S3 (DownloadFile Downloader.BUCKET_NAME (Key o)
               (Downloader.local_filename (Key o)))
      :: match get_object s3 Downloader.BUCKET_NAME (Key o) with
         | None => []
         | Some _ => Write (Downloader.local_filename (Key o))
                     :: download_trace qs'
         end
  end.

Fixpoint download_files (qs : list s3_object) (m : gmap string content)
  : gmap string content :=
  match qs with
  | [] => m
  | o :: qs' =>
      match get_object s3 Downloader.BUCKET_NAME (Key o) with
      | None => m
      | Some body =>
          download_files qs'
            (<[Downloader.local_filename (Key o) := Bytes body]> m)
      end
  end.

End Views.

(** ** Concrete buckets, bodies and file systems *)

(** A bucket: what the listing of [results/] returns, and the stored
    bodies by key. *)
Definition bucket (listing : option (list s3_object))
    (objects : list (string * string)) : s3_service :=
  {| list_objects_v2 := λ Bucket Prefix,
       if bool_decide (Bucket = "drumanalytics-uploads-nsteele")
          && bool_decide (Prefix = "results/")
       then Some {| Contents := listing |}
       else Some {| Contents := None |};
     get_object := λ Bucket Key,
       if bool_decide (Bucket = "drumanalytics-uploads-nsteele")
       then (list_to_map objects : gmap string string) !! Key
       else None |}.

(** A parser that knows the given bodies only. *)
Definition loads_table (table : list (string * pyval)) (raw : string)
  : option pyval :=
  (list_to_map table : gmap string pyval) !! raw.

(** The quotation mark, for writing JSON text. *)
Definition q : string := String "034" "".

(** [{"bpm": 120}] and [{"bpm": 95, "genre": "rock"}] *)
Definition body_a : string := "{" +:+ q +:+ "bpm" +:+ q +:+ ": 120}".
Definition body_b : string :=
  "{" +:+ q +:+ "bpm" +:+ q +:+ ": 95, " +:+ q +:+ "genre" +:+ q +:+ ": "
  +:+ q +:+ "rock" +:+ q +:+ "}".

(** A body that already has fields named like the injected ones:
    [{"s3_key": "mine", "analysis_timestamp": 7, "bpm": 88}] *)
Definition body_shadow : string :=
  "{" +:+ q +:+ "s3_key" +:+ q +:+ ": " +:+ q +:+ "mine" +:+ q +:+ ", "
  +:+ q +:+ "analysis_timestamp" +:+ q +:+ ": 7, "
  +:+ q +:+ "bpm" +:+ q +:+ ": 88}".

Definition record_a : dict := [("bpm", PInt 120)].
Definition record_b : dict := [("bpm", PInt 95); ("genre", PStr "rock")].
Definition record_shadow : dict :=
  [("s3_key", PStr "mine"); ("analysis_timestamp", PInt 7); ("bpm", PInt 88)].

Definition scenario_loads : string → option pyval :=
  loads_table [(body_a, PDict record_a); (body_b, PDict record_b);
               (body_shadow, PDict record_shadow)].

Definition obj_a : s3_object := {| Key := "results/a.json"; LastModified := 1700000100 |}.
Definition obj_b : s3_object := {| Key := "results/b.json"; LastModified := 1700000200 |}.
Definition obj_marker : s3_object := {| Key := "results/"; LastModified := 1700000000 |}.
Definition obj_notes : s3_object := {| Key := "results/notes.txt"; LastModified := 1700000300 |}.
Definition obj_old_a : s3_object := {| Key := "results/old/a.json"; LastModified := 1600000000 |}.
Definition obj_shadow : s3_object := {| Key := "results/c.json"; LastModified := 1700000400 |}.

(** Nothing under the prefix: the response has no ["Contents"]. *)
Definition s3_empty : s3_service := bucket None [].

(** Only the folder marker. *)
Definition s3_only_marker : s3_service :=
  bucket (Some [obj_marker]) [("results/", "")].

(** The two analysis files and the folder marker. *)
Definition s3_scenario : s3_service :=
  bucket (Some [obj_a; obj_b; obj_marker])
    [("results/a.json", body_a); ("results/b.json", body_b); ("results/", "")].

(** The same listing and bodies; an unlisted object is stored as well. *)
Definition s3_scenario_more : s3_service :=
  bucket (Some [obj_a; obj_b; obj_marker])
    [("results/a.json", body_a); ("results/b.json", body_b); ("results/", "x");
     ("other/z.json", body_shadow)].

(** A text file next to the analysis files. *)
Definition s3_mixed : s3_service :=
  bucket (Some [obj_marker; obj_a; obj_notes; obj_b])
    [("results/a.json", body_a); ("results/b.json", body_b); ("results/", "");
     ("results/notes.txt", "tempo looks off")].

(** A body that defines [s3_key] and [analysis_timestamp] itself. *)
Definition s3_shadow : s3_service :=
  bucket (Some [obj_a; obj_shadow])
    [("results/a.json", body_a); ("results/c.json", body_shadow)].

(** Two keys with the same final path segment. *)
Definition s3_clash : s3_service :=
  bucket (Some [obj_old_a; obj_a])
    [("results/old/a.json", body_b); ("results/a.json", body_a)].

Definition fs_empty : filesystem := {| dirs := ∅; files := ∅ |}.

(** A file system left by earlier runs. *)
Definition fs_used : filesystem :=
  {| dirs := {["downloaded_results"]};
     files := {["all_drum_analysis.csv" := Bytes "bpm";
                "downloaded_results/a.json" := Bytes body_b]} |}.

(** The table the Loader builds from [s3_shadow]. *)
Definition table_shadow : DataFrame :=
  {| columns := ["bpm"; "s3_key"; "analysis_timestamp"];
     values :=
       [ [Val (PInt 120); Val (PStr "results/a.json"); Val (PDatetime 1700000100)];
         [Val (PInt 88); Val (PStr "results/c.json"); Val (PDatetime 1700000400)] ] |}.

(** The table the Loader builds from [s3_scenario]. *)
Definition table_scenario : DataFrame :=
  {| columns := ["bpm"; "s3_key"; "analysis_timestamp"; "genre"];
     values :=
       [ [Val (PInt 120); Val (PStr "results/a.json"); Val (PDatetime 1700000100);
          NaN];
         [Val (PInt 95); Val (PStr "results/b.json"); Val (PDatetime 1700000200);
          Val (PStr "rock")] ] |}.

(** ** Further views of the two jobs *)

(** The objects the listing call returns: none when the call raises or
    the response has no ["Contents"]. *)
Definition listed (s3 : s3_service) (Bucket Prefix : string)
  : list s3_object :=
  match list_objects_v2 s3 Bucket Prefix with
  | Some {| Contents := Some contents |} => contents
  | _ => []
  end.

(** The objects the download loop gets through: those before the first
    one that cannot be fetched. *)
Fixpoint downloaded (s3 : s3_service) (qs : list s3_object)
  : list s3_object :=
  match qs with
  | [] => []
  | o :: qs' =>
      match get_object s3 Downloader.BUCKET_NAME (Key o) with
      | None => []
      | Some _ => o :: downloaded s3 qs'
      end
  end.

(** The call and the progress line of one download. *)
Definition download_call (o : s3_object) : s3_call :=
  DownloadFile Downloader.BUCKET_NAME (Key o)
    (Downloader.local_filename (Key o)).

Definition download_line (o : s3_object) : string :=
  "Downloading " +:+ Key o +:+ " → " +:+ Downloader.local_filename (Key o).

(** The call and the progress line of one load. *)
Definition load_call (o : s3_object) : s3_call :=
  GetObject Loader.S3_BUCKET (Key o).

Definition load_line (o : s3_object) : string := "Loading " +:+ Key o.

(** ** The version check: [analysis/test_ffmpeg.py] *)

Module Ffmpeg.

(** A [str], as its code points. *)
Abbreviation text := (list N).

(** The characters [str.splitlines] breaks lines at: line feed, vertical
    tab, form feed, carriage return, the file, group and record
    separators, next line, line separator and paragraph separator. *)
Definition is_linebreak (c : N) : bool :=
  bool_decide (c ∈ [10; 11; 12; 13; 28; 29; 30; 133; 8232; 8233]%N).

(** [s.splitlines()], with [line] the part of the current line already
    read.  A carriage return followed by a line feed is one break; a
    break at the very end opens no further line. *)
Fixpoint splitlines_go (line : text) (s : text) : list text :=
  match s with
  | [] => if bool_decide (line = []) then [] else [line]
  | c :: rest =>
      if is_linebreak c then
        match rest with
        | d :: rest' =>
            if bool_decide (c = 13%N) && bool_decide (d = 10%N)
            then line :: splitlines_go [] rest'
            else line :: splitlines_go [] rest
        | [] => line :: splitlines_go [] rest
        end
      else splitlines_go (line ++ [c]) rest
  end.

Definition splitlines (s : text) : list text := splitlines_go [] s.

(** What [subprocess.run(..., capture_output=True, text=True)] returns. *)
Record CompletedProcess : Type := mkCompleted {
  returncode : Z;
  stdout : text;
  stderr : text
}.

(** What [subprocess.run] itself can raise: the program is not found,
    it may not be executed, its output is not text in the expected
    encoding, or anything else, kept by its name. *)
Inductive run_error : Type :=
  | FileNotFoundError
  | PermissionError
  | UnicodeDecodeError
  | OtherException (name : string).

(** How [subprocess.run] ends. *)
Inductive run_outcome : Type :=
  | Returns (result : CompletedProcess)
  | Raises (e : run_error).

(** The exceptions that can end the script: one of [subprocess.run],
    which the script does not catch, or the [IndexError] of
    [splitlines()[0]]. *)
Inductive error : Type :=
  | RunError (e : run_error)
  | IndexError.

(** How the script ends: the lines it printed, and the exception that
    ended it, if any. *)
Record outcome : Type := mkOutcome {
  printed_lines : list text;
  raised : option error
}.

Section Script.

(** [subprocess.run(args, capture_output=True, text=True)] for an
    argument list. *)
Variable subprocess_run : list string → run_outcome.

Definition test_ffmpeg : outcome :=
  match subprocess_run ["ffmpeg"; "-version"] with
  | Raises e => {| printed_lines := []; raised := Some (RunError e) |}
  | Returns result =>
      match splitlines (stdout result) !! 0%nat with
      | None => {| printed_lines := []; raised := Some IndexError |}
      | Some first_line =>
          {| printed_lines := [first_line]; raised := None |}
      end
  end.

End Script.

(** The code points of a text written in ASCII. *)
Fixpoint of_ascii (s : string) : text :=
  match s with
  | EmptyString => []
  | String a s' => N_of_ascii a :: of_ascii s'
  end.

End Ffmpeg.

(** ** Further buckets and processes *)

(** [results/notes.txt] is listed but cannot be fetched. *)
Definition s3_missing_notes : s3_service :=
  bucket (Some [obj_marker; obj_a; obj_notes; obj_b])
    [("results/a.json", body_a); ("results/b.json", body_b); ("results/", "")].

(** [results/b.json] holds text that is not JSON. *)
Definition s3_malformed : s3_service :=
  bucket (Some [obj_a; obj_b; obj_shadow])
    [("results/a.json", body_a); ("results/b.json", "bpm=95");
     ("results/c.json", body_shadow)].

(** The line feed. *)
Definition nl : string := String "010" "".

(** An installed ffmpeg: two lines of output, status 0. *)
Definition ffmpeg_installed (args : list string) : Ffmpeg.run_outcome :=
  if bool_decide (args = ["ffmpeg"; "-version"])
  then Ffmpeg.Returns
         {| Ffmpeg.returncode := 0;
            Ffmpeg.stdout :=
              Ffmpeg.of_ascii
                ("ffmpeg version 6.0" +:+ nl +:+ "built with gcc" +:+ nl);
            Ffmpeg.stderr := [] |}
  else Ffmpeg.Raises Ffmpeg.FileNotFoundError.

(** A program of that name that prints nothing and fails. *)
Definition ffmpeg_silent (args : list string) : Ffmpeg.run_outcome :=
  Ffmpeg.Returns
    {| Ffmpeg.returncode := 1; Ffmpeg.stdout := [];
       Ffmpeg.stderr := Ffmpeg.of_ascii "broken" |}.

(** No ffmpeg on the path. *)
Definition ffmpeg_absent (args : list string) : Ffmpeg.run_outcome :=
  Ffmpeg.Raises Ffmpeg.FileNotFoundError.

(** A file named ffmpeg that may not be executed. *)
Definition ffmpeg_not_executable (args : list string) : Ffmpeg.run_outcome :=
  Ffmpeg.Raises Ffmpeg.PermissionError.

(** ** Sanity checks of the text functions *)

Example endswith_json : Str.endswith "results/a.json" ".json" = true.
Proof. reflexivity. Qed.

Example endswith_folder : Str.endswith "results/" "/" = true.
Proof. reflexivity. Qed.

Example endswith_longer : Str.endswith "json" ".json" = false.
Proof. reflexivity. Qed.

Example basename_nested : OsPath.basename "results/run1/a.json" = "a.json".
Proof. reflexivity. Qed.

Example basename_flat : OsPath.basename "a.json" = "a.json".
Proof. reflexivity. Qed.

Example basename_folder : OsPath.basename "results/" = "".
Proof. reflexivity. Qed.

Example local_filename_a :
  Downloader.local_filename "results/a.json" = "downloaded_results/a.json".
Proof. reflexivity. Qed.

Example loader_on_scenario :
  (Loader.load_analysis_to_pandas scenario_loads s3_scenario (boot fs_empty)).1
  = Ok table_scenario.
Proof. reflexivity. Qed.

Example loader_on_shadow :
  (Loader.load_analysis_to_pandas scenario_loads s3_shadow (boot fs_empty)).1
  = Ok table_shadow.
Proof. reflexivity. Qed.

Example downloader_on_mixed :
  s3_calls (Downloader.fetch_s3_results s3_mixed (boot fs_empty)).2
  = [ListObjectsV2 "drumanalytics-uploads-nsteele" "results/";
     DownloadFile "drumanalytics-uploads-nsteele" "results/a.json"
       "downloaded_results/a.json";
     DownloadFile "drumanalytics-uploads-nsteele" "results/notes.txt"
       "downloaded_results/notes.txt";
     DownloadFile "drumanalytics-uploads-nsteele" "results/b.json"
       "downloaded_results/b.json"].
Proof. reflexivity. Qed.

(** [splitlines] on [a\n\nb\r\nc\r\n], on the empty text and on a lone
    line feed. *)
Example splitlines_mixed_breaks :
  Ffmpeg.splitlines
    (Ffmpeg.of_ascii ("a" +:+ nl +:+ nl +:+ "b" +:+ String "013" nl +:+ "c"
                      +:+ String "013" nl))
  = Ffmpeg.of_ascii <$> ["a"; ""; "b"; "c"].
Proof. reflexivity. Qed.

Example splitlines_empty : Ffmpeg.splitlines [] = [].
Proof. reflexivity. Qed.

Example splitlines_line_feed : Ffmpeg.splitlines (Ffmpeg.of_ascii nl) = [[]].
Proof. reflexivity. Qed.

Example test_ffmpeg_installed :
  Ffmpeg.test_ffmpeg ffmpeg_installed
  = {| Ffmpeg.printed_lines := [Ffmpeg.of_ascii "ffmpeg version 6.0"];
       Ffmpeg.raised := None |}.
Proof. reflexivity. Qed.

(** ** Facts about the text functions *)

Section StrFacts.

Lemma app_cons a (p s : string) : String a p +:+ s = String a (p +:+ s).
Proof. reflexivity. Qed.

Lemma app_empty_l (s : string) : "" +:+ s = s.
Proof. reflexivity. Qed.

Lemma length_app (p s : string) :
  String.length (p +:+ s) = (String.length p + String.length s)%nat.
Proof. induction p as [|a p IH]; [done|]. rewrite app_cons /=. by rewrite IH. Qed.

Lemma drop_app_length (p s : string) :
  Str.drop (String.length p) (p +:+ s) = s.
Proof. induction p as [|a p IH]; [by destruct s|]. by rewrite app_cons. Qed.

Lemma drop_split (n : nat) (s : string) : ∃ p, s = p +:+ Str.drop n s.
Proof.
  revert s. induction n as [|n IH]; intros s.
  - by exists "".
  - destruct s as [|a s]; [by exists ""|].
    destruct (IH s) as [p Hp]. exists (String a p).
    rewrite app_cons /=. by rewrite -Hp.
Qed.

(** [endswith] is the suffix test. *)
Lemma endswith_iff (s suffix : string) :
  Str.endswith s suffix = true ↔ ∃ p, s = p +:+ suffix.
Proof.
  unfold Str.endswith. rewrite andb_true_iff !bool_decide_eq_true. split.
  - intros [_ Hd]. destruct (drop_split (String.length s - String.length suffix) s)
      as [p Hp]. exists p. by rewrite Hd in Hp.
  - intros [p ->]. rewrite length_app. split; [lia|].
    replace (String.length p + String.length suffix - String.length suffix)%nat
      with (String.length p) by lia.
    apply drop_app_length.
Qed.

Lemma last_app (p s : string) : s ≠ "" → Str.last (p +:+ s) = Str.last s.
Proof.
  intros Hs. induction p as [|a p IH]; [done|].
  rewrite app_cons. simpl. rewrite IH.
  destruct (p +:+ s) eqn:E; [|done].
  destruct p; [by rewrite app_empty_l in E|by rewrite app_cons in E].
Qed.

Lemma endswith_last (s suffix : string) :
  suffix ≠ "" → Str.endswith s suffix = true → Str.last s = Str.last suffix.
Proof. intros Hn [p ->]%endswith_iff. by apply last_app. Qed.

(** A folder marker is not a [.json] key. *)
Lemma folder_not_json (key : string) :
  Str.endswith key "/" = true → Str.endswith key ".json" = false.
Proof.
  intros Hf. destruct (Str.endswith key ".json") eqn:Hj; [|done].
  apply endswith_last in Hf; [|done]. apply endswith_last in Hj; [|done].
  rewrite Hf in Hj. discriminate.
Qed.

Lemma json_not_folder (key : string) :
  Str.endswith key ".json" = true → Str.endswith key "/" = false.
Proof.
  intros Hj. destruct (Str.endswith key "/") eqn:Hf; [|done].
  apply folder_not_json in Hf. congruence.
Qed.

Lemma json_nonempty (key : string) : Str.endswith key ".json" = true → key ≠ "".
Proof. by intros H ->. Qed.

Lemma drop_next (n : nat) (s t : string) c :
  Str.drop n s = String c t → Str.drop (S n) s = t.
Proof.
  revert s. induction n as [|n IH]; intros [|a s]; simpl; try done.
  - intros [= _ ->]. by destruct t.
  - apply IH.
Qed.


(** [rfind] gives the position of the last occurrence: what follows it
    is free of the character. *)
Lemma rfind_from_spec (i : Z) (s : string) c :
  (0 ≤ i)%Z →
  (Str.rfind_from i s c = (-1)%Z ∧ Str.contains c s = false)
  ∨ ∃ n t, Str.rfind_from i s c = (i + Z.of_nat n)%Z
           ∧ Str.drop n s = String c t ∧ Str.contains c t = false.
Proof.
  revert i. induction s as [|a s IH]; intros i Hi; simpl; [by left|].
  destruct (IH (i + 1)%Z) as [[-> Hc]|(n & t & -> & Hd & Hc)]; [lia| |].
  - simpl. destruct (Ascii.eqb a c) eqn:Ha.
    + apply Ascii.eqb_eq in Ha as ->. right. exists O, s.
      split_and!; [f_equal; lia|done..].
    + left. by rewrite Hc.
  - right. exists (S n), t.
    rewrite (proj2 (Z.leb_le 0 _)); [lia|]. split_and!; [lia|done..].
Qed.

(** [basename] splits a path after its last [/]. *)
Lemma basename_spec (p : string) :
  Str.contains "/" (OsPath.basename p) = false
  ∧ (OsPath.basename p = p
     ∨ ∃ dir, p = dir +:+ "/" +:+ OsPath.basename p).
Proof.
  unfold OsPath.basename, Str.rfind.
  destruct (rfind_from_spec 0 p "/") as [[-> Hc]|(n & t & -> & Hd & Hc)];
    [done|by auto|].
  replace (Z.to_nat (0 + Z.of_nat n + 1)) with (S n) by lia.
  rewrite (drop_next _ _ _ _ Hd). split; [done|]. right.
  destruct (drop_split n p) as [dir Hp]. exists dir. by rewrite Hd in Hp.
Qed.



(** Joining the output directory with a name that does not start with
    [/] puts the name under the directory. *)
Lemma join_output_dir (name : string) :
  Str.startswith name "/" = false →
  OsPath.join Downloader.LOCAL_OUTPUT_DIR name
  = Downloader.LOCAL_OUTPUT_DIR +:+ "/" +:+ name.
Proof. intros H. unfold OsPath.join, OsPath.sep. by rewrite H. Qed.

Lemma startswith_contains (s : string) c :
  Str.contains c s = false → Str.startswith s (String c "") = false.
Proof.
  destruct s as [|a s]; [done|]. cbn [Str.contains Str.startswith].
  intros [Ha _]%orb_false_iff. by rewrite Ascii.eqb_sym Ha.
Qed.


(** The local file of a key is the output directory, a [/] and the
    final path segment of the key. *)
Lemma local_filename_inside (key : string) :
  Downloader.local_filename key
  = Downloader.LOCAL_OUTPUT_DIR +:+ "/" +:+ OsPath.basename key.
Proof.
  unfold Downloader.local_filename. apply join_output_dir.
  apply startswith_contains. by destruct (basename_spec key).
Qed.

End StrFacts.

(** ** Facts about [dict] and the table constructor *)

Section DictFacts.

Lemma get_setitem_eq k v (d : dict) : Dict.get k (Dict.setitem k v d) = Some v.
Proof.
  induction d as [|[k' v'] d IH]; simpl.
  - by rewrite bool_decide_eq_true_2.
  - case_bool_decide as Hk; simpl.
    + by rewrite bool_decide_eq_true_2.
    + by rewrite bool_decide_eq_false_2.
Qed.

Lemma get_setitem_ne k k' v (d : dict) :
  k ≠ k' → Dict.get k' (Dict.setitem k v d) = Dict.get k' d.
Proof.
  intros Hne. induction d as [|[k0 v0] d IH]; simpl.
  - by rewrite bool_decide_eq_false_2.
  - case_bool_decide as Hk; simpl.
    + subst k0. by rewrite !bool_decide_eq_false_2.
    + by rewrite IH.
Qed.

Lemma get_is_Some k (d : dict) : is_Some (Dict.get k d) ↔ k ∈ Dict.keys d.
Proof.
  unfold Dict.keys. induction d as [|[k0 v0] d IH]; simpl.
  - split; [by intros [? ?]|by intros ?%elem_of_nil].
  - rewrite elem_of_cons. case_bool_decide as Hk.
    + split; [by left|by eexists].
    + rewrite IH. naive_solver.
Qed.

Lemma keys_setitem k v (d : dict) k' :
  k' ∈ Dict.keys (Dict.setitem k v d) ↔ k' = k ∨ k' ∈ Dict.keys d.
Proof.
  rewrite -!get_is_Some. destruct (decide (k = k')) as [->|Hne].
  - rewrite get_setitem_eq. split; [by left|by eexists].
  - rewrite get_setitem_ne; [done|]. naive_solver.
Qed.

End DictFacts.

Section PdFacts.

Lemma elem_of_add_unseen (cols : list string) k c :
  c ∈ Pd.add_unseen cols k ↔ c ∈ cols ∨ c = k.
Proof.
  unfold Pd.add_unseen. case_bool_decide as Hk.
  - split; [by left|]. by intros [?| ->].
  - by rewrite elem_of_app list_elem_of_singleton.
Qed.

Lemma elem_of_foldl_add_unseen (l acc : list string) c :
  c ∈ foldl Pd.add_unseen acc l ↔ c ∈ acc ∨ c ∈ l.
Proof.
  revert acc. induction l as [|k l IH]; intros acc; simpl.
  - rewrite elem_of_nil. tauto.
  - rewrite IH elem_of_add_unseen elem_of_cons. tauto.
Qed.

Lemma NoDup_foldl_add_unseen (l acc : list string) :
  NoDup acc → NoDup (foldl Pd.add_unseen acc l).
Proof.
  revert acc. induction l as [|k l IH]; intros acc Hacc; simpl; [done|].
  apply IH. unfold Pd.add_unseen. case_bool_decide as Hk; [done|].
  apply NoDup_app. split_and!; [done| |apply NoDup_singleton].
  intros x Hx ->%list_elem_of_singleton. done.
Qed.

(** The columns are the union of the records' keys. *)
Lemma elem_of_union_of_keys (data : list dict) c :
  c ∈ Pd.union_of_keys data ↔ ∃ d, d ∈ data ∧ c ∈ Dict.keys d.
Proof.
  unfold Pd.union_of_keys.
  rewrite elem_of_foldl_add_unseen elem_of_nil.
  rewrite list_elem_of_bind. split.
  - intros [[]|(d & Hc & Hd)]. eauto.
  - intros (d & Hd & Hc). right. eauto.
Qed.

Lemma NoDup_union_of_keys (data : list dict) : NoDup (Pd.union_of_keys data).
Proof. apply NoDup_foldl_add_unseen, NoDup_nil_2. Qed.

Lemma len_DataFrame_of (data : list dict) :
  Pd.len (Pd.DataFrame_of data) = length data.
Proof. unfold Pd.len. simpl. by rewrite length_fmap. Qed.

Lemma index_of_Some (cols : list string) c :
  c ∈ cols → ∃ j, Pd.index_of c cols = Some j ∧ cols !! j = Some c.
Proof.
  induction cols as [|c0 cols IH]; [by intros ?%elem_of_nil|].
  intros Hc. simpl. case_bool_decide as Hk.
  - subst c0. by exists O.
  - apply elem_of_cons in Hc as [->|Hc]; [done|].
    destruct (IH Hc) as (j & -> & Hj). by exists (S j).
Qed.

(** The cell of row [i] in a column of the table. *)
Lemma at_DataFrame_of (data : list dict) i d c :
  data !! i = Some d →
  c ∈ columns (Pd.DataFrame_of data) →
  Pd.at_ (Pd.DataFrame_of data) i c = Some (Pd.cell_of d c).
Proof.
  intros Hi Hc. unfold Pd.at_. simpl in *.
  rewrite list_lookup_fmap Hi /=.
  destruct (index_of_Some _ _ Hc) as (j & -> & Hj). simpl.
  by rewrite list_lookup_fmap Hj.
Qed.

Lemma at_DataFrame_of_inv (data : list dict) i c x :
  Pd.at_ (Pd.DataFrame_of data) i c = Some x →
  ∃ d, data !! i = Some d ∧ x = Pd.cell_of d c.
Proof.
  unfold Pd.at_. simpl. rewrite list_lookup_fmap.
  destruct (data !! i) as [d|] eqn:Hi; [|done]. simpl.
  destruct (Pd.index_of c (Pd.union_of_keys data)) as [j|] eqn:Hj; [|done].
  simpl. rewrite list_lookup_fmap. intros Hx. exists d. split; [done|].
  destruct (Pd.union_of_keys data !! j) as [c'|] eqn:Hc; [|done].
  simpl in Hx. injection Hx as <-. f_equal.
  clear -Hj Hc. revert j Hj Hc.
  induction (Pd.union_of_keys data) as [|c0 cols IH]; intros j; [done|].
  simpl. case_bool_decide as Hk.
  - intros [= <-]. simpl. congruence.
  - destruct (Pd.index_of c cols) as [j'|]; [|done]. simpl.
    intros [= <-]. simpl. by apply IH.
Qed.

End PdFacts.

(** ** What the loops compute *)

Section Runs.

Variable json_loads : string → option pyval.
Variable s3 : s3_service.

Lemma bind_run {A B} (m : prog A) (k : A → prog B) (w : world) :
  (m ≫= k) w =
  match m w with
  | (Ok a, w') => k a w'
  | (SystemExit c, w') => (SystemExit c, w')
  | (Raised e, w') => (Raised e, w')
  end.
Proof. reflexivity. Qed.

Lemma world_eta (w : world) : {| log := log w; fs := fs w |} = w.
Proof. by destruct w. Qed.

Lemma fs_eta (f : filesystem) : {| dirs := dirs f; files := files f |} = f.
Proof. by destruct f. Qed.

Lemma downloader_loop_run (contents : list s3_object) (w : world) :
  for_in contents (Downloader.loop_body s3) tt w =
  (download_result s3 (non_folders contents),
   {| log := log w ++ download_trace s3 (non_folders contents);
      fs := {| dirs := dirs (fs w);
               files := download_files s3 (non_folders contents)
                          (files (fs w)) |} |}).
Proof.
  revert w. induction contents as [|o contents IH]; intros w.
  - simpl. by rewrite app_nil_r fs_eta world_eta.
  - unfold non_folders in *. simpl for_in. rewrite bind_run.
    unfold Downloader.loop_body at 1.
    destruct (Str.endswith (Key o) "/") eqn:Hf.
    + rewrite filter_cons_False; [congruence|]. apply IH.
    + rewrite filter_cons_True; [done|]. simpl.
      unfold s3_download_file, print, emit. rewrite !bind_run. simpl.
      destruct (get_object s3 Downloader.BUCKET_NAME (Key o)) as [body|].
      * simpl. rewrite IH. simpl. by rewrite -!app_assoc.
      * simpl. by rewrite -!app_assoc fs_eta.
Qed.

Lemma loader_loop_run (contents : list s3_object) (rows : list dict)
    (w : world) :
  for_in contents (Loader.loop_body json_loads s3) rows w =
  (match records_of json_loads s3 (json_objects contents) with
   | inr ds => Ok (rows ++ ds)
   | inl e => Raised e
   end,
   {| log := log w ++ loader_trace json_loads s3 (json_objects contents);
      fs := fs w |}).
Proof.
  revert rows w. induction contents as [|o contents IH]; intros rows w.
  - simpl. by rewrite !app_nil_r world_eta.
  - unfold json_objects in *. simpl for_in. rewrite bind_run.
    unfold Loader.loop_body at 1.
    destruct (Str.endswith (Key o) ".json") eqn:Hj; simpl negb; cbv iota.
    + rewrite filter_cons_True; [done|]. simpl.
      unfold s3_get_object, print, emit, Loader.loads, record_of.
      rewrite !bind_run. simpl.
      destruct (get_object s3 Loader.S3_BUCKET (Key o)) as [raw|];
        [|simpl; by rewrite -!app_assoc].
      simpl. rewrite !bind_run.
      destruct (json_loads raw) as [v|]; [|simpl; by rewrite -!app_assoc].
      destruct v; simpl; try (by rewrite -!app_assoc).
      rewrite IH. simpl.
      destruct (records_of _ _ _); simpl; by rewrite -!app_assoc.
    + rewrite filter_cons_False; [congruence|]. apply IH.
Qed.

(** The whole Downloader run, from any local file system. *)
Lemma downloader_run (fs0 : filesystem) :
  Downloader.fetch_s3_results s3 (boot fs0) =
  let start :=
    [Makedirs Downloader.LOCAL_OUTPUT_DIR;
     Print (Text "Fetching list of analysis files from S3...");
     S3 (ListObjectsV2 Downloader.BUCKET_NAME Downloader.S3_PREFIX)] in
  let dirs' := {[Downloader.LOCAL_OUTPUT_DIR]} ∪ dirs fs0 in
  match list_objects_v2 s3 Downloader.BUCKET_NAME Downloader.S3_PREFIX with
  | None =>
      (Raised ClientError,
       {| log := start; fs := {| dirs := dirs'; files := files fs0 |} |})
  | Some {| Contents := None |} =>
      (SystemExit None,
       {| log := start ++ [Print (Text "❌ No analysis files found in S3.")];
          fs := {| dirs := dirs'; files := files fs0 |} |})
  | Some {| Contents := Some contents |} =>
      let qs := non_folders contents in
      let files' := download_files s3 qs (files fs0) in
      match download_result s3 qs with
      | Ok _ =>
          (Ok tt,
           {| log := start ++ download_trace s3 qs ++
                [Print (Text "✅ All analysis files downloaded successfully.")];
              fs := {| dirs := dirs'; files := files' |} |})
      | r =>
          (r, {| log := start ++ download_trace s3 qs;
                 fs := {| dirs := dirs'; files := files' |} |})
      end
  end.
Proof.
  unfold Downloader.fetch_s3_results, s3_list_objects_v2, makedirs, print,
    emit, boot.
  rewrite !bind_run. simpl.
  destruct (list_objects_v2 s3 _ _) as [[[contents|]]|]; simpl; [|done..].
  rewrite !bind_run downloader_loop_run. simpl.
  destruct (download_result s3 (non_folders contents)); simpl;
    by rewrite -?app_assoc.
Qed.

(** The whole Loader run, from any local file system. *)
Lemma loader_run (fs0 : filesystem) :
  Loader.load_analysis_to_pandas json_loads s3 (boot fs0) =
  let start :=
    [Print (Text "Fetching analysis files from S3...");
     S3 (ListObjectsV2 Loader.S3_BUCKET Loader.RESULTS_PREFIX)] in
  match list_objects_v2 s3 Loader.S3_BUCKET Loader.RESULTS_PREFIX with
  | None => (Raised ClientError, {| log := start; fs := fs0 |})
  | Some {| Contents := None |} =>
      (SystemExit None,
       {| log := start ++ [Print (Text "❌ No analysis files found.")];
          fs := fs0 |})
  | Some {| Contents := Some contents |} =>
      let qs := json_objects contents in
      match records_of json_loads s3 qs with
      | inl e =>
          (Raised e,
           {| log := start ++ loader_trace json_loads s3 qs; fs := fs0 |})
      | inr analysis_rows =>
          let df := Pd.DataFrame_of analysis_rows in
          (Ok df,
           {| log := start ++ loader_trace json_loads s3 qs ++
                [Print (Text (Loader.nl +:+ "✅ Loaded analysis data into pandas"));
                 Print (Frame (Pd.head df));
                 Print (Text (Loader.nl +:+ "Columns:"));
                 Print (Index (columns df));
                 Write "all_drum_analysis.csv";
                 Print (Text (Loader.nl +:+ "Saved all_drum_analysis.csv"))];
              fs := {| dirs := dirs fs0;
                       files := <["all_drum_analysis.csv" := CsvNoIndex df]>
                                  (files fs0) |} |})
      end
  end.
Proof.
  unfold Loader.load_analysis_to_pandas, s3_list_objects_v2, print, emit, boot.
  rewrite !bind_run. simpl.
  destruct (list_objects_v2 s3 _ _) as [[[contents|]]|]; simpl; [|done..].
  rewrite !bind_run loader_loop_run. simpl.
  destruct (records_of json_loads s3 (json_objects contents)); simpl; [done|].
  unfold to_csv, write_file, print, emit. rewrite !bind_run. simpl.
  by rewrite -?app_assoc.
Qed.

End Runs.

(** ** The records the Loader accumulates *)

Section Records.

Variable json_loads : string → option pyval.
Variable s3 : s3_service.

Lemma record_of_inr (o : s3_object) (d : dict) :
  record_of json_loads s3 o = inr d ↔
  ∃ raw d0,
    get_object s3 Loader.S3_BUCKET (Key o) = Some raw
    ∧ json_loads raw = Some (PDict d0)
    ∧ d = Dict.setitem "analysis_timestamp" (PDatetime (LastModified o))
            (Dict.setitem "s3_key" (PStr (Key o)) d0).
Proof.
  unfold record_of. split.
  - destruct (get_object s3 _ _) as [raw|]; [|done].
    destruct (json_loads raw) as [[]|] eqn:Hj; try done.
    intros [= <-]. eauto.
  - intros (raw & d0 & -> & -> & ->). done.
Qed.

(** Whatever the body held, the record carries the injected values. *)
Lemma record_of_s3_key (o : s3_object) (d : dict) :
  record_of json_loads s3 o = inr d →
  Dict.get "s3_key" d = Some (PStr (Key o)).
Proof.
  intros (raw & d0 & _ & _ & ->)%record_of_inr.
  rewrite get_setitem_ne; [done|]. apply get_setitem_eq.
Qed.

Lemma record_of_timestamp (o : s3_object) (d : dict) :
  record_of json_loads s3 o = inr d →
  Dict.get "analysis_timestamp" d = Some (PDatetime (LastModified o)).
Proof.
  intros (raw & d0 & _ & _ & ->)%record_of_inr. apply get_setitem_eq.
Qed.

Lemma records_of_inr (qs : list s3_object) (ds : list dict) :
  records_of json_loads s3 qs = inr ds ↔
  Forall2 (λ o d, record_of json_loads s3 o = inr d) qs ds.
Proof.
  revert ds. induction qs as [|o qs IH]; intros ds; simpl.
  - split; [by intros [= <-]; constructor|by intros ->%Forall2_nil_inv_l].
  - destruct (record_of json_loads s3 o) as [e|d] eqn:Ho.
    + split; [done|]. intros (d & ds' & Hd & _ & _)%Forall2_cons_inv_l.
      congruence.
    + destruct (records_of json_loads s3 qs) as [e|ds'] eqn:Hqs.
      * split; [done|]. intros (d' & ds' & _ & Hds & _)%Forall2_cons_inv_l.
        by apply IH in Hds.
      * split.
        -- intros [= <-]. constructor; [done|]. by apply IH.
        -- intros (d' & ds'' & Hd & Hds & ->)%Forall2_cons_inv_l.
           apply IH in Hds. congruence.
Qed.

(** The loop ends without an exception when every qualifying object
    can be fetched and holds a JSON object. *)
Lemma records_of_total (qs : list s3_object) :
  (∀ o, o ∈ qs → ∃ raw d0,
      get_object s3 Loader.S3_BUCKET (Key o) = Some raw
      ∧ json_loads raw = Some (PDict d0)) →
  ∃ ds, records_of json_loads s3 qs = inr ds.
Proof.
  induction qs as [|o qs IH]; intros Hall; simpl; [by eexists|].
  destruct (Hall o) as (raw & d0 & Hraw & Hd0); [apply list_elem_of_here|].
  destruct IH as [ds Hds].
  { intros o' Ho'. apply Hall. by apply list_elem_of_further. }
  unfold record_of. rewrite Hraw Hd0 Hds. by eexists.
Qed.

(** Row [i] of the table comes from the [i]-th qualifying object. *)
Lemma table_injected_cells (qs : list s3_object) (ds : list dict) i o :
  records_of json_loads s3 qs = inr ds →
  qs !! i = Some o →
  Pd.at_ (Pd.DataFrame_of ds) i "s3_key" = Some (Val (PStr (Key o)))
  ∧ Pd.at_ (Pd.DataFrame_of ds) i "analysis_timestamp"
    = Some (Val (PDatetime (LastModified o))).
Proof.
  intros Hds%records_of_inr Hi.
  destruct (Forall2_lookup_l _ _ _ _ _ Hds Hi) as (d & Hd & Ho).
  assert (Hin : d ∈ ds) by (apply list_elem_of_lookup; eauto).
  pose proof (record_of_s3_key _ _ Ho) as Hk.
  pose proof (record_of_timestamp _ _ Ho) as Ht.
  split.
  - rewrite (at_DataFrame_of ds i d); [done| |].
    + simpl. apply elem_of_union_of_keys. exists d. split; [done|].
      apply get_is_Some. by rewrite Hk.
    + unfold Pd.cell_of. by rewrite Hk.
  - rewrite (at_DataFrame_of ds i d); [done| |].
    + simpl. apply elem_of_union_of_keys. exists d. split; [done|].
      apply get_is_Some. by rewrite Ht.
    + unfold Pd.cell_of. by rewrite Ht.
Qed.

(** A run that returns a table has listed objects behind it. *)
Lemma loader_Ok_inv (fs0 : filesystem) (df : DataFrame) (w : world) :
  Loader.load_analysis_to_pandas json_loads s3 (boot fs0) = (Ok df, w) →
  ∃ contents ds,
    list_objects_v2 s3 Loader.S3_BUCKET Loader.RESULTS_PREFIX
      = Some {| Contents := Some contents |}
    ∧ records_of json_loads s3 (json_objects contents) = inr ds
    ∧ df = Pd.DataFrame_of ds.
Proof.
  rewrite loader_run. simpl.
  destruct (list_objects_v2 s3 _ _) as [[[contents|]]|]; [|done..].
  destruct (records_of json_loads s3 (json_objects contents)) as [e|ds] eqn:Hds;
    [done|].
  intros [= <- _]. eauto.
Qed.

Lemma elem_of_loader_trace (qs : list s3_object) Bucket key :
  S3 (GetObject Bucket key) ∈ loader_trace json_loads s3 qs →
  ∃ o, o ∈ qs ∧ key = Key o.
Proof.
  induction qs as [|o qs IH]; simpl; [by intros ?%elem_of_nil|].
  rewrite !elem_of_cons. intros [?|[[= _ ->]|H]]; [done| |].
  - exists o. split; [apply list_elem_of_here|done].
  - destruct (record_of json_loads s3 o); [by apply elem_of_nil in H|].
    destruct (IH H) as (o' & Ho' & ->). exists o'.
    split; [by apply list_elem_of_further|done].
Qed.

End Records.

(** ** Reading the log *)

Section Logs.

Variable s3 : s3_service.

Lemma elem_of_s3_calls (w : world) (c : s3_call) :
  c ∈ s3_calls w ↔ S3 c ∈ log w.
Proof.
  unfold s3_calls. rewrite list_elem_of_omap. split.
  - intros ([] & He & [= <-]); done.
  - intros He. by exists (S3 c).
Qed.

Lemma elem_of_written (w : world) (path : string) :
  path ∈ written w ↔ Write path ∈ log w.
Proof.
  unfold written. rewrite list_elem_of_omap. split.
  - intros ([] & He & [= <-]); done.
  - intros He. by exists (Write path).
Qed.


Lemma elem_of_download_trace_Write (qs : list s3_object) (path : string) :
  Write path ∈ download_trace s3 qs →
  ∃ o, o ∈ qs ∧ path = Downloader.local_filename (Key o).
Proof.
  induction qs as [|o qs IH]; simpl; [by intros ?%elem_of_nil|].
  rewrite !elem_of_cons. intros [?|[?|H]]; [done..|].
  destruct (get_object s3 _ _); [|by apply elem_of_nil in H].
  apply elem_of_cons in H as [[= ->]|H].
  - exists o. split; [apply list_elem_of_here|done].
  - destruct (IH H) as (o' & Ho' & ->). exists o'.
    split; [by apply list_elem_of_further|done].
Qed.

(** When no download fails, every object of the loop is downloaded and
    its file written. *)
Lemma download_trace_complete (qs : list s3_object) (o : s3_object) :
  download_result s3 qs = Ok tt → o ∈ qs →
  S3 (DownloadFile Downloader.BUCKET_NAME (Key o)
        (Downloader.local_filename (Key o))) ∈ download_trace s3 qs
  ∧ Write (Downloader.local_filename (Key o)) ∈ download_trace s3 qs.
Proof.
  induction qs as [|o' qs IH]; simpl; [by intros _ ?%elem_of_nil|].
  destruct (get_object s3 _ _) as [body|]; [|done].
  intros Hok [->|Ho]%elem_of_cons; rewrite !elem_of_cons.
  - split; auto.
  - destruct (IH Hok Ho). split; auto.
Qed.

Lemma download_result_total (qs : list s3_object) :
  (∀ o, o ∈ qs → is_Some (get_object s3 Downloader.BUCKET_NAME (Key o))) →
  download_result s3 qs = Ok tt.
Proof.
  induction qs as [|o qs IH]; intros Hall; simpl; [done|].
  destruct (Hall o) as [body ->]; [apply list_elem_of_here|].
  apply IH. intros o' Ho'. apply Hall. by apply list_elem_of_further.
Qed.

(** What a path holds after the loop: the body of the last downloaded
    object named like it, or what it held before. *)
Lemma download_files_lookup (qs : list s3_object) (m : gmap string content)
    (path : string) :
  download_result s3 qs = Ok tt →
  download_files s3 qs m !! path =
  match last (filter (λ o, Downloader.local_filename (Key o) = path) qs) with
  | Some o => Bytes <$> get_object s3 Downloader.BUCKET_NAME (Key o)
  | None => m !! path
  end.
Proof.
  revert m. induction qs as [|o qs IH]; intros m; simpl; [done|].
  destruct (get_object s3 _ (Key o)) as [body|] eqn:Hbody; [|done].
  intros Hok. rewrite (IH _ Hok). rewrite filter_cons.
  destruct (decide (Downloader.local_filename (Key o) = path)) as [<-|Hne].
  - rewrite last_cons.
    destruct (last (filter _ qs)); [done|].
    by rewrite lookup_insert_eq Hbody.
  - destruct (last (filter _ qs)); [done|]. by rewrite lookup_insert_ne.
Qed.

Lemma download_files_dom (qs : list s3_object) (m : gmap string content) :
  dom (download_files s3 qs m)
  = dom m ∪ list_to_set
              (omap (λ e, match e with Write p => Some p | _ => None end)
                 (download_trace s3 qs)).
Proof.
  revert m. induction qs as [|o qs IH]; intros m; simpl.
  - set_solver.
  - destruct (get_object s3 _ (Key o)) as [body|]; simpl; [|set_solver].
    rewrite IH dom_insert_L. set_solver.
Qed.

Lemma download_writes_length (qs : list s3_object) :
  (length (omap (λ e, match e with Write p => Some p | _ => None end)
             (download_trace s3 qs)) ≤ length qs)%nat.
Proof.
  induction qs as [|o qs IH]; simpl; [done|].
  destruct (get_object s3 _ (Key o)); csimpl; lia.
Qed.

End Logs.

Lemma size_list_to_set_le (l : list string) :
  (size (list_to_set l : gset string) ≤ length l)%nat.
Proof.
  induction l as [|x l IH]; [done|]. rewrite list_to_set_cons /=.
  rewrite size_union_alt size_singleton.
  assert (Hsub : list_to_set l ∖ {[x]} ⊆ (list_to_set l : gset string))
    by set_solver.
  apply subseteq_size in Hsub. lia.
Qed.

(** The files a Downloader run writes are those of its download loop. *)
Lemma downloader_written (s3 : s3_service) (fs0 : filesystem)
    (contents : list s3_object) :
  list_objects_v2 s3 Downloader.BUCKET_NAME Downloader.S3_PREFIX
    = Some {| Contents := Some contents |} →
  written (Downloader.fetch_s3_results s3 (boot fs0)).2
  = omap (λ e, match e with Write p => Some p | _ => None end)
      (download_trace s3 (non_folders contents))
  ∧ files (fs (Downloader.fetch_s3_results s3 (boot fs0)).2)
    = download_files s3 (non_folders contents) (files fs0)
  ∧ ((Downloader.fetch_s3_results s3 (boot fs0)).1 = Ok tt ↔
     download_result s3 (non_folders contents) = Ok tt).
Proof.
  intros Hlist. rewrite downloader_run Hlist. simpl. unfold written.
  destruct (download_result s3 (non_folders contents)) as [[]| |]; csimpl;
    rewrite ?omap_app ?app_nil_r; done.
Qed.

(** ** The Loader reads the listing and the listed bodies only *)

Section Agreement.

Variable json_loads : string → option pyval.
Variables s3a s3b : s3_service.

Lemma records_of_ext (qs : list s3_object) :
  (∀ o, o ∈ qs →
     get_object s3a Loader.S3_BUCKET (Key o)
     = get_object s3b Loader.S3_BUCKET (Key o)) →
  records_of json_loads s3a qs = records_of json_loads s3b qs
  ∧ loader_trace json_loads s3a qs = loader_trace json_loads s3b qs.
Proof.
  induction qs as [|o qs IH]; intros Hagree; simpl; [done|].
  assert (Ho : record_of json_loads s3a o = record_of json_loads s3b o).
  { unfold record_of. rewrite Hagree; [apply list_elem_of_here|done]. }
  destruct IH as [IHr IHt].
  { intros o' Ho'. apply Hagree. by apply list_elem_of_further. }
  by rewrite Ho IHr IHt.
Qed.

End Agreement.

(** The records behind the columns of the table. *)
Lemma elem_of_records_of (json_loads : string → option pyval) (s3 : s3_service)
    (qs : list s3_object) (ds : list dict) (d : dict) :
  records_of json_loads s3 qs = inr ds →
  d ∈ ds ↔ ∃ o, o ∈ qs ∧ record_of json_loads s3 o = inr d.
Proof.
  intros HF%records_of_inr. split.
  - intros (i & Hd)%list_elem_of_lookup_1.
    destruct (Forall2_lookup_r _ _ _ _ _ HF Hd) as (o & Ho & Hrec).
    exists o. split; [by eapply list_elem_of_lookup_2|done].
  - intros (o & (i & Ho)%list_elem_of_lookup_1 & Hrec).
    destruct (Forall2_lookup_l _ _ _ _ _ HF Ho) as (d' & Hd' & Hrec').
    assert (d' = d) as -> by congruence.
    by eapply list_elem_of_lookup_2.
Qed.

(** ** The properties of the two jobs *)

(** C1 as stated does not hold when the bucket holds only the
    folder marker [results/]: the response has a ["Contents"] field, so
    neither job prints its "no analysis files found" message, and the
    Loader writes its output file. *)
Lemma C1_only_folder_marker_counterexample :
  ¬ (let '(rd, wd) := Downloader.fetch_s3_results s3_only_marker (boot fs_empty) in
     let '(rl, wl) :=
       Loader.load_analysis_to_pandas scenario_loads s3_only_marker
         (boot fs_empty) in
     ("❌ No analysis files found in S3." ∈ stdout_text wd
      ∧ "❌ No analysis files found." ∈ stdout_text wl)
     ∧ written wd = [] ∧ written wl = [])
  ∧ (let '(rd, wd) := Downloader.fetch_s3_results s3_only_marker (boot fs_empty) in
     let '(rl, wl) :=
       Loader.load_analysis_to_pandas scenario_loads s3_only_marker
         (boot fs_empty) in
     ("❌ No analysis files found in S3." ∉ stdout_text wd)
     ∧ ("❌ No analysis files found." ∉ stdout_text wl)
     ∧ written wl = ["all_drum_analysis.csv"]).
Proof.
  rewrite downloader_run (loader_run scenario_loads). vm_compute. split.
  - intros (_ & _ & Hw). discriminate Hw.
  - split_and!; [| |done]; intros H;
      repeat (apply elem_of_cons in H as [H|H]; [discriminate H|]);
      by apply elem_of_nil in H.
Qed.

(** C1, amended.  When the listing holds a single object whose key ends
    in [/], neither job prints its "no analysis files found" message.
    The Downloader downloads nothing, writes no local file and prints its
    completion line; the Loader fetches nothing, builds a table with no
    rows and no columns and writes that table to [all_drum_analysis.csv]. *)
Theorem C1_only_folder_marker
    (json_loads : string → option pyval) (s3 : s3_service) (fs0 : filesystem)
    (marker : s3_object) :
  Str.endswith (Key marker) "/" = true →
  list_objects_v2 s3 Downloader.BUCKET_NAME Downloader.S3_PREFIX
    = Some {| Contents := Some [marker] |} →
  list_objects_v2 s3 Loader.S3_BUCKET Loader.RESULTS_PREFIX
    = Some {| Contents := Some [marker] |} →
  let '(rd, wd) := Downloader.fetch_s3_results s3 (boot fs0) in
  let '(rl, wl) := Loader.load_analysis_to_pandas json_loads s3 (boot fs0) in
  let empty_table := {| columns := []; values := [] |} in
  (rd = Ok tt
   ∧ stdout wd = [Text "Fetching list of analysis files from S3...";
                  Text "✅ All analysis files downloaded successfully."]
   ∧ s3_calls wd = [ListObjectsV2 Downloader.BUCKET_NAME Downloader.S3_PREFIX]
   ∧ written wd = [] ∧ files (fs wd) = files fs0)
  ∧ (rl = Ok empty_table
     ∧ ("❌ No analysis files found." ∉ stdout_text wl)
     ∧ s3_calls wl = [ListObjectsV2 Loader.S3_BUCKET Loader.RESULTS_PREFIX]
     ∧ written wl = ["all_drum_analysis.csv"]
     ∧ files (fs wl)
       = (<["all_drum_analysis.csv" := CsvNoIndex empty_table]> (files fs0))).
Proof.
  intros Hm Hd Hl. rewrite downloader_run (loader_run json_loads).
  rewrite Hd ?Hl. unfold non_folders, json_objects.
  rewrite (filter_cons_False _ marker); [by rewrite Hm|].
  rewrite (filter_cons_False _ marker); [by rewrite (folder_not_json _ Hm)|].
  rewrite !filter_nil. simpl. split_and!; try done.
  rewrite !not_elem_of_cons. split_and!; [done..|]. apply not_elem_of_nil.
Qed.

(** The amended C1 on the bucket that holds the folder marker only, with
    files of earlier runs on disk. *)
Lemma C1_only_folder_marker_witness :
  let '(rd, wd) := Downloader.fetch_s3_results s3_only_marker (boot fs_used) in
  let '(rl, wl) :=
    Loader.load_analysis_to_pandas scenario_loads s3_only_marker (boot fs_used) in
  let empty_table := {| columns := []; values := [] |} in
  (rd = Ok tt
   ∧ stdout wd = [Text "Fetching list of analysis files from S3...";
                  Text "✅ All analysis files downloaded successfully."]
   ∧ s3_calls wd = [ListObjectsV2 Downloader.BUCKET_NAME Downloader.S3_PREFIX]
   ∧ written wd = [] ∧ files (fs wd) = files fs_used)
  ∧ (rl = Ok empty_table
     ∧ ("❌ No analysis files found." ∉ stdout_text wl)
     ∧ s3_calls wl = [ListObjectsV2 Loader.S3_BUCKET Loader.RESULTS_PREFIX]
     ∧ written wl = ["all_drum_analysis.csv"]
     ∧ files (fs wl)
       = (<["all_drum_analysis.csv" := CsvNoIndex empty_table]> (files fs_used))).
Proof.
  apply (C1_only_folder_marker scenario_loads s3_only_marker fs_used obj_marker);
    reflexivity.
Defined.

(** C2. When the listing response has no ["Contents"] field, each job
    prints its "no files found" message after the opening line, writes no
    file (the local files are as before) and ends through [exit()], which
    gives exit status zero. *)
Theorem C2_empty_listing_stops_cleanly
    (json_loads : string → option pyval) (s3 : s3_service) (fs0 : filesystem) :
  list_objects_v2 s3 Downloader.BUCKET_NAME Downloader.S3_PREFIX
    = Some {| Contents := None |} →
  list_objects_v2 s3 Loader.S3_BUCKET Loader.RESULTS_PREFIX
    = Some {| Contents := None |} →
  let '(rd, wd) := Downloader.fetch_s3_results s3 (boot fs0) in
  let '(rl, wl) := Loader.load_analysis_to_pandas json_loads s3 (boot fs0) in
  (rd = SystemExit None ∧ exit_status rd = 0%Z
   ∧ stdout wd = [Text "Fetching list of analysis files from S3...";
                  Text "❌ No analysis files found in S3."]
   ∧ written wd = [] ∧ files (fs wd) = files fs0)
  ∧ (rl = SystemExit None ∧ exit_status rl = 0%Z
     ∧ stdout wl = [Text "Fetching analysis files from S3...";
                    Text "❌ No analysis files found."]
     ∧ written wl = [] ∧ fs wl = fs0).
Proof.
  intros Hd Hl. rewrite downloader_run (loader_run json_loads).
  rewrite Hd ?Hl. simpl. done.
Qed.

(** C2 on a bucket with nothing under the prefix, with files of earlier
    runs on disk. *)
Lemma C2_empty_listing_witness :
  let '(rd, wd) := Downloader.fetch_s3_results s3_empty (boot fs_used) in
  let '(rl, wl) :=
    Loader.load_analysis_to_pandas scenario_loads s3_empty (boot fs_used) in
  (rd = SystemExit None ∧ exit_status rd = 0%Z
   ∧ stdout wd = [Text "Fetching list of analysis files from S3...";
                  Text "❌ No analysis files found in S3."]
   ∧ written wd = [] ∧ files (fs wd) = files fs_used)
  ∧ (rl = SystemExit None ∧ exit_status rl = 0%Z
     ∧ stdout wl = [Text "Fetching analysis files from S3...";
                    Text "❌ No analysis files found."]
     ∧ written wl = [] ∧ fs wl = fs_used).
Proof.
  apply (C2_empty_listing_stops_cleanly scenario_loads s3_empty fs_used);
    reflexivity.
Defined.

(** C3. Whenever the Loader returns a table, its rows are the listed
    objects whose key ends in [.json], in listing order, and in row [i]
    the cell [s3_key] is the key of the [i]-th such object and the cell
    [analysis_timestamp] is its last-modified time.  Neither cell is
    empty.  This holds for every parser and every stored body, so also
    for bodies that define fields with these two names: the injected
    values replace them. *)
Theorem C3_injected_fields_overwrite
    (json_loads : string → option pyval) (s3 : s3_service) (fs0 : filesystem)
    (df : DataFrame) (w : world) :
  Loader.load_analysis_to_pandas json_loads s3 (boot fs0) = (Ok df, w) →
  ∃ contents,
    list_objects_v2 s3 Loader.S3_BUCKET Loader.RESULTS_PREFIX
      = Some {| Contents := Some contents |}
    ∧ Pd.len df = length (json_objects contents)
    ∧ ∀ i obj, json_objects contents !! i = Some obj →
        ∃ key_cell time_cell,
          Pd.at_ df i "s3_key" = Some key_cell
          ∧ key_cell = Val (PStr (Key obj))
          ∧ Pd.is_empty key_cell = false
          ∧ Pd.at_ df i "analysis_timestamp" = Some time_cell
          ∧ time_cell = Val (PDatetime (LastModified obj))
          ∧ Pd.is_empty time_cell = false.
Proof.
  intros (contents & ds & Hlist & Hds & ->)%loader_Ok_inv.
  exists contents. split_and!; [done| |].
  - rewrite len_DataFrame_of. symmetry.
    by eapply Forall2_length, records_of_inr.
  - intros i obj Hi.
    destruct (table_injected_cells _ _ _ _ _ _ Hds Hi) as [Hk Ht].
    eexists _, _. split_and!; [exact Hk|done| |exact Ht|done|done].
    simpl. apply bool_decide_eq_false.
    apply json_nonempty.
    apply list_elem_of_lookup_2 in Hi.
    by apply list_elem_of_filter in Hi as [? _].
Qed.

(** C3 on a bucket where [results/c.json] defines [s3_key] and
    [analysis_timestamp] itself: the table carries the injected values. *)
Lemma C3_injected_fields_witness :
  ∃ contents,
    list_objects_v2 s3_shadow Loader.S3_BUCKET Loader.RESULTS_PREFIX
      = Some {| Contents := Some contents |}
    ∧ Pd.len table_shadow = length (json_objects contents)
    ∧ ∀ i obj, json_objects contents !! i = Some obj →
        ∃ key_cell time_cell,
          Pd.at_ table_shadow i "s3_key" = Some key_cell
          ∧ key_cell = Val (PStr (Key obj))
          ∧ Pd.is_empty key_cell = false
          ∧ Pd.at_ table_shadow i "analysis_timestamp" = Some time_cell
          ∧ time_cell = Val (PDatetime (LastModified obj))
          ∧ Pd.is_empty time_cell = false.
Proof.
  eapply (C3_injected_fields_overwrite scenario_loads s3_shadow fs_empty).
  vm_compute. reflexivity.
Defined.

(** C4. When the listed keys are pairwise distinct and every listed
    object whose key ends in [.json] can be fetched and holds a JSON
    object, the Loader returns a table with one row per such object: as
    many rows as there are [.json] keys in the listing, row [i] carrying
    the key of the [i]-th of them in [s3_key], and no two rows carrying
    the same [s3_key]. *)
Theorem C4_rows_match_json_objects
    (json_loads : string → option pyval) (s3 : s3_service) (fs0 : filesystem)
    (contents : list s3_object) :
  list_objects_v2 s3 Loader.S3_BUCKET Loader.RESULTS_PREFIX
    = Some {| Contents := Some contents |} →
  NoDup (Key <$> contents) →
  (∀ obj, obj ∈ json_objects contents →
     ∃ raw d0, get_object s3 Loader.S3_BUCKET (Key obj) = Some raw
               ∧ json_loads raw = Some (PDict d0)) →
  ∃ df w,
    Loader.load_analysis_to_pandas json_loads s3 (boot fs0) = (Ok df, w)
    ∧ Pd.len df = length (json_objects contents)
    ∧ (∀ i obj, json_objects contents !! i = Some obj →
         Pd.at_ df i "s3_key" = Some (Val (PStr (Key obj))))
    ∧ (∀ i key_cell, Pd.at_ df i "s3_key" = Some key_cell →
         ∃ obj, json_objects contents !! i = Some obj
                ∧ key_cell = Val (PStr (Key obj)))
    ∧ (∀ i j key_cell,
         Pd.at_ df i "s3_key" = Some key_cell →
         Pd.at_ df j "s3_key" = Some key_cell → i = j).
Proof.
  intros Hlist Hnd Hall.
  destruct (records_of_total json_loads s3 _ Hall) as [ds Hds].
  pose proof (loader_run json_loads s3 fs0) as Hrun.
  rewrite Hlist in Hrun. simpl in Hrun. rewrite Hds in Hrun.
  eexists _, _. split; [exact Hrun|].
  assert (Hlen : length ds = length (json_objects contents)).
  { symmetry. by eapply Forall2_length, records_of_inr. }
  assert (Hrow : ∀ i key_cell,
            Pd.at_ (Pd.DataFrame_of ds) i "s3_key" = Some key_cell →
            ∃ obj, json_objects contents !! i = Some obj
                   ∧ key_cell = Val (PStr (Key obj))).
  { intros i c (d & Hd & ->)%at_DataFrame_of_inv.
    pose proof Hds as HF%records_of_inr.
    destruct (Forall2_lookup_r _ _ _ _ _ HF Hd) as (obj & Hobj & Hrec).
    exists obj. split; [done|].
    unfold Pd.cell_of. by rewrite (record_of_s3_key _ _ _ _ Hrec). }
  split_and!; [by rewrite len_DataFrame_of| |done|].
  - intros i obj Hi. by destruct (table_injected_cells _ _ _ _ _ _ Hds Hi).
  - intros i j c (oi & Hi & ->)%Hrow (oj & Hj & [= Hk])%Hrow.
    assert (Hndq : NoDup (Key <$> json_objects contents)).
    { eapply sublist_NoDup; [exact Hnd|].
      apply fmap_sublist, sublist_filter. }
    eapply (NoDup_lookup _ i j (Key oi) Hndq).
    + by rewrite list_lookup_fmap Hi.
    + by rewrite list_lookup_fmap Hj /= Hk.
Qed.

(** C4 on a listing with a folder marker, a text file and two analysis
    files. *)
Lemma C4_rows_match_witness :
  ∃ df w,
    Loader.load_analysis_to_pandas scenario_loads s3_mixed (boot fs_used)
      = (Ok df, w)
    ∧ Pd.len df = length (json_objects [obj_marker; obj_a; obj_notes; obj_b])
    ∧ (∀ i obj, json_objects [obj_marker; obj_a; obj_notes; obj_b] !! i = Some obj →
         Pd.at_ df i "s3_key" = Some (Val (PStr (Key obj))))
    ∧ (∀ i key_cell, Pd.at_ df i "s3_key" = Some key_cell →
         ∃ obj, json_objects [obj_marker; obj_a; obj_notes; obj_b] !! i = Some obj
                ∧ key_cell = Val (PStr (Key obj)))
    ∧ (∀ i j key_cell,
         Pd.at_ df i "s3_key" = Some key_cell →
         Pd.at_ df j "s3_key" = Some key_cell → i = j).
Proof.
  apply (C4_rows_match_json_objects scenario_loads s3_mixed fs_used
           [obj_marker; obj_a; obj_notes; obj_b]).
  - reflexivity.
  - apply (bool_decide_unpack _). vm_compute. exact I.
  - intros obj Hobj. vm_compute in Hobj.
    apply elem_of_cons in Hobj as [->|Hobj]; [by eexists _, _|].
    apply elem_of_cons in Hobj as [->|Hobj]; [by eexists _, _|].
    by apply elem_of_nil in Hobj.
Defined.

(** C5. A key that does not end in [.json] is never fetched by the
    Loader, whatever the run's outcome; no record of the sequence the
    loop accumulates and no row of the returned table carries it in
    [s3_key], and the table has as many rows as the listing has [.json]
    keys. *)
Theorem C5_non_json_objects_excluded
    (json_loads : string → option pyval) (s3 : s3_service) (fs0 : filesystem)
    (key : string) :
  Str.endswith key ".json" = false →
  let '(r, w) := Loader.load_analysis_to_pandas json_loads s3 (boot fs0) in
  (∀ Bucket, GetObject Bucket key ∉ s3_calls w)
  ∧ (∀ df, r = Ok df →
       (∀ i, Pd.at_ df i "s3_key" ≠ Some (Val (PStr key)))
       ∧ ∃ contents,
           list_objects_v2 s3 Loader.S3_BUCKET Loader.RESULTS_PREFIX
             = Some {| Contents := Some contents |}
           ∧ Pd.len df = length (json_objects contents)
           ∧ ∀ obj, obj ∈ json_objects contents → Key obj ≠ key)
  ∧ (∀ contents w0 analysis_rows w',
       for_in contents (Loader.loop_body json_loads s3) [] w0
         = (Ok analysis_rows, w') →
       (∀ Bucket, S3 (GetObject Bucket key) ∈ log w' →
                  S3 (GetObject Bucket key) ∈ log w0)
       ∧ ∀ d, d ∈ analysis_rows → Dict.get "s3_key" d ≠ Some (PStr key)).
Proof.
  intros Hkey.
  assert (Hq : ∀ contents obj, obj ∈ json_objects contents → Key obj ≠ key).
  { intros contents obj [Hj _]%list_elem_of_filter Heq. congruence. }
  assert (Htrace : ∀ contents Bucket,
             S3 (GetObject Bucket key)
               ∉ loader_trace json_loads s3 (json_objects contents)).
  { intros contents Bucket (o & Ho & ->)%elem_of_loader_trace.
    by eapply Hq. }
  destruct (Loader.load_analysis_to_pandas json_loads s3 (boot fs0))
    as [r w] eqn:Hrun.
  split_and!.
  - intros Bucket Hc%elem_of_s3_calls. revert Hrun Hc.
    rewrite loader_run. simpl.
    destruct (list_objects_v2 s3 _ _) as [[[contents|]]|].
    + pose proof (Htrace contents Bucket).
      destruct (records_of _ _ _); intros [= <- <-]; simpl;
        rewrite ?elem_of_cons ?elem_of_app ?elem_of_cons ?elem_of_nil;
        naive_solver.
    + intros [= <- <-]. simpl. rewrite !elem_of_cons elem_of_nil. naive_solver.
    + intros [= <- <-]. simpl. rewrite !elem_of_cons elem_of_nil. naive_solver.
  - intros df ->.
    apply loader_Ok_inv in Hrun as (contents & ds & Hlist & Hds & ->).
    split.
    + intros i (d & Hd & Hcell)%at_DataFrame_of_inv.
      pose proof Hds as HF%records_of_inr.
      destruct (Forall2_lookup_r _ _ _ _ _ HF Hd) as (obj & Hobj & Hrec).
      unfold Pd.cell_of in Hcell.
      rewrite (record_of_s3_key _ _ _ _ Hrec) in Hcell.
      injection Hcell as Hk. apply list_elem_of_lookup_2 in Hobj.
      by eapply Hq.
    + exists contents. split_and!; [done| |by apply Hq].
      rewrite len_DataFrame_of. symmetry.
      by eapply Forall2_length, records_of_inr.
  - intros contents w0 rows w'. rewrite loader_loop_run.
    destruct (records_of _ _ _) as [e|ds] eqn:Hds; [done|].
    intros [= <- <-]. simpl. split.
    + intros Bucket [?|?]%elem_of_app; [done|]. by edestruct Htrace.
    + intros d (i & Hd)%list_elem_of_lookup_1 Hget.
      pose proof Hds as HF%records_of_inr.
      destruct (Forall2_lookup_r _ _ _ _ _ HF Hd) as (obj & Hobj & Hrec).
      rewrite (record_of_s3_key _ _ _ _ Hrec) in Hget.
      injection Hget as Hk. apply list_elem_of_lookup_2 in Hobj.
      by eapply Hq.
Qed.

(** C5 for the text file [results/notes.txt] listed among the analysis
    files. *)
Lemma C5_non_json_objects_witness :
  let '(r, w) :=
    Loader.load_analysis_to_pandas scenario_loads s3_mixed (boot fs_empty) in
  (∀ Bucket, GetObject Bucket "results/notes.txt" ∉ s3_calls w)
  ∧ (∀ df, r = Ok df →
       (∀ i, Pd.at_ df i "s3_key" ≠ Some (Val (PStr "results/notes.txt")))
       ∧ ∃ contents,
           list_objects_v2 s3_mixed Loader.S3_BUCKET Loader.RESULTS_PREFIX
             = Some {| Contents := Some contents |}
           ∧ Pd.len df = length (json_objects contents)
           ∧ ∀ obj, obj ∈ json_objects contents → Key obj ≠ "results/notes.txt")
  ∧ (∀ contents w0 analysis_rows w',
       for_in contents (Loader.loop_body scenario_loads s3_mixed) [] w0
         = (Ok analysis_rows, w') →
       (∀ Bucket, S3 (GetObject Bucket "results/notes.txt") ∈ log w' →
                  S3 (GetObject Bucket "results/notes.txt") ∈ log w0)
       ∧ ∀ d, d ∈ analysis_rows →
              Dict.get "s3_key" d ≠ Some (PStr "results/notes.txt")).
Proof.
  apply (C5_non_json_objects_excluded scenario_loads s3_mixed fs_empty
           "results/notes.txt").
  reflexivity.
Defined.



(** C7. The columns of the table built from a list of records are
    exactly the field names that occur in some record, and a row whose
    record lacks a column holds a missing cell there.  For the Loader the
    records are the parsed bodies with the two injected fields, so its
    columns are [s3_key], [analysis_timestamp] and the fields of the
    bodies.  In the scenario with [results/a.json] holding [{"bpm": 120}],
    [results/b.json] holding [{"bpm": 95, "genre": "rock"}] and the folder
    marker [results/], listed in any order, the table has two rows, the
    columns [bpm], [genre], [s3_key] and [analysis_timestamp], and the
    row of [results/a.json] has a missing [genre] cell. *)
Theorem C7_columns_are_union_of_fields :
  (∀ (data : list dict) (col : string),
     col ∈ columns (Pd.DataFrame_of data) ↔
     ∃ record, record ∈ data ∧ col ∈ Dict.keys record)
  ∧ (∀ (data : list dict) (i : nat) (record : dict) (col : string),
       data !! i = Some record →
       col ∈ columns (Pd.DataFrame_of data) →
       col ∉ Dict.keys record →
       Pd.at_ (Pd.DataFrame_of data) i col = Some NaN)
  ∧ (∀ (json_loads : string → option pyval) (s3 : s3_service)
       (fs0 : filesystem) (contents : list s3_object) (df : DataFrame)
       (w : world),
       list_objects_v2 s3 Loader.S3_BUCKET Loader.RESULTS_PREFIX
         = Some {| Contents := Some contents |} →
       Loader.load_analysis_to_pandas json_loads s3 (boot fs0) = (Ok df, w) →
       ∀ col,
         col ∈ columns df ↔
         ∃ obj raw body,
           obj ∈ json_objects contents
           ∧ get_object s3 Loader.S3_BUCKET (Key obj) = Some raw
           ∧ json_loads raw = Some (PDict body)
           ∧ (col = "s3_key" ∨ col = "analysis_timestamp"
              ∨ col ∈ Dict.keys body))
  ∧ (∀ (json_loads : string → option pyval) (s3 : s3_service)
       (fs0 : filesystem) (contents : list s3_object) (ta tb tm : Z),
       contents ≡ₚ [ {| Key := "results/a.json"; LastModified := ta |};
                     {| Key := "results/b.json"; LastModified := tb |};
                     {| Key := "results/"; LastModified := tm |} ] →
       list_objects_v2 s3 Loader.S3_BUCKET Loader.RESULTS_PREFIX
         = Some {| Contents := Some contents |} →
       get_object s3 Loader.S3_BUCKET "results/a.json" = Some body_a →
       get_object s3 Loader.S3_BUCKET "results/b.json" = Some body_b →
       json_loads body_a = Some (PDict [("bpm", PInt 120)]) →
       json_loads body_b
         = Some (PDict [("bpm", PInt 95); ("genre", PStr "rock")]) →
       ∃ df w,
         Loader.load_analysis_to_pandas json_loads s3 (boot fs0) = (Ok df, w)
         ∧ Pd.len df = 2%nat
         ∧ columns df ≡ₚ ["bpm"; "genre"; "s3_key"; "analysis_timestamp"]
         ∧ (∃ i, Pd.at_ df i "s3_key" = Some (Val (PStr "results/a.json")))
         ∧ (∀ i, Pd.at_ df i "s3_key" = Some (Val (PStr "results/a.json")) →
                 Pd.at_ df i "bpm" = Some (Val (PInt 120))
                 ∧ Pd.at_ df i "genre" = Some NaN)).
Proof.
  split_and!.
  - intros data col. apply elem_of_union_of_keys.
  - intros data i record col Hi Hcol Hlacks.
    rewrite (at_DataFrame_of data i record); [done..|].
    unfold Pd.cell_of.
    destruct (Dict.get col record) as [v|] eqn:Hget; [|done].
    destruct Hlacks. apply get_is_Some. by rewrite Hget.
  - intros json_loads s3 fs0 contents df w Hlist
      (contents' & ds & Hlist' & Hds & ->)%loader_Ok_inv col.
    assert (contents' = contents) as -> by congruence.
    simpl. rewrite elem_of_union_of_keys. split.
    + intros (d & (o & Ho & Hrec)%(elem_of_records_of _ _ _ _ _ Hds) & Hcol).
      apply record_of_inr in Hrec as (raw & d0 & Hraw & Hd0 & ->).
      exists o, raw, d0. split_and!; [done..|].
      apply keys_setitem in Hcol as [->|Hcol]; [by auto|].
      apply keys_setitem in Hcol as [->|Hcol]; by auto.
    + intros (o & raw & d0 & Ho & Hraw & Hd0 & Hcol).
      eexists. split.
      * apply (elem_of_records_of _ _ _ _ _ Hds). exists o. split; [done|].
        apply record_of_inr. by exists raw, d0.
      * rewrite !keys_setitem. tauto.
  - intros json_loads s3 fs0 contents ta tb tm Hperm Hlist Ha Hb Hja Hjb.
    pose proof (loader_run json_loads s3 fs0) as Hrun.
    rewrite Hlist in Hrun. simpl in Hrun.
    assert (Hq : json_objects contents
                 ≡ₚ [ {| Key := "results/a.json"; LastModified := ta |};
                      {| Key := "results/b.json"; LastModified := tb |} ]).
    { unfold json_objects. by rewrite Hperm. }
    apply Permutation_sym, Permutation.Permutation_length_2_inv in Hq
      as [Hq|Hq]; rewrite Hq in Hrun; simpl in Hrun;
      unfold record_of in Hrun; simpl in Hrun;
      rewrite Ha Hb Hja Hjb in Hrun; simpl in Hrun;
      eexists _, _; (split; [exact Hrun|]).
    + split_and!; [done|by apply (bool_decide_unpack _)|by exists 0%nat|].
      intros [|[|i]]; vm_compute; [done|done|done].
    + split_and!; [done|by apply (bool_decide_unpack _)|by exists 1%nat|].
      intros [|[|i]]; vm_compute; [done|done|done].
Qed.

(** The scenario of C7 on the bucket [s3_scenario]. *)
Lemma C7_columns_witness :
  ∃ df w,
    Loader.load_analysis_to_pandas scenario_loads s3_scenario (boot fs_empty)
      = (Ok df, w)
    ∧ Pd.len df = 2%nat
    ∧ columns df ≡ₚ ["bpm"; "genre"; "s3_key"; "analysis_timestamp"]
    ∧ (∃ i, Pd.at_ df i "s3_key" = Some (Val (PStr "results/a.json")))
    ∧ (∀ i, Pd.at_ df i "s3_key" = Some (Val (PStr "results/a.json")) →
            Pd.at_ df i "bpm" = Some (Val (PInt 120))
            ∧ Pd.at_ df i "genre" = Some NaN).
Proof.
  destruct C7_columns_are_union_of_fields as (_ & _ & _ & Hscenario).
  apply (Hscenario scenario_loads s3_scenario fs_empty
           [obj_a; obj_b; obj_marker] 1700000100 1700000200 1700000000)%Z;
    reflexivity.
Defined.

(** C8. The outcome of the Loader depends on the listing response and
    on the bodies of the listed [.json] objects only.  Two runs for which
    these agree, on any two local file systems and whatever else the
    object store holds, end the same way with the same log; when they
    return tables, the tables are equal, so they have the same number of
    rows and the same columns. *)
Theorem C8_loader_deterministic
    (json_loads : string → option pyval) (s3a s3b : s3_service)
    (fsa fsb : filesystem) :
  list_objects_v2 s3a Loader.S3_BUCKET Loader.RESULTS_PREFIX
    = list_objects_v2 s3b Loader.S3_BUCKET Loader.RESULTS_PREFIX →
  (∀ contents obj,
     list_objects_v2 s3a Loader.S3_BUCKET Loader.RESULTS_PREFIX
       = Some {| Contents := Some contents |} →
     obj ∈ json_objects contents →
     get_object s3a Loader.S3_BUCKET (Key obj)
     = get_object s3b Loader.S3_BUCKET (Key obj)) →
  let '(ra, wa) := Loader.load_analysis_to_pandas json_loads s3a (boot fsa) in
  let '(rb, wb) := Loader.load_analysis_to_pandas json_loads s3b (boot fsb) in
  ra = rb ∧ log wa = log wb
  ∧ ∀ dfa dfb, ra = Ok dfa → rb = Ok dfb →
      Pd.len dfa = Pd.len dfb
      ∧ (list_to_set (columns dfa) : gset string) = list_to_set (columns dfb)
      ∧ dfa = dfb
      ∧ files (fs wa) !! "all_drum_analysis.csv"
        = files (fs wb) !! "all_drum_analysis.csv".
Proof.
  intros Hlist Hbodies.
  rewrite (loader_run json_loads s3a) (loader_run json_loads s3b). simpl.
  rewrite -Hlist.
  destruct (list_objects_v2 s3a _ _) as [[[contents|]]|] eqn:Hl; [|done..].
  destruct (records_of_ext json_loads s3a s3b (json_objects contents)) as [Hr Ht].
  { intros o Ho. by apply (Hbodies contents). }
  rewrite -Hr -Ht.
  destruct (records_of json_loads s3a (json_objects contents)) as [e|ds];
    [done|].
  split_and!; [done..|]. intros dfa dfb [= <-] [= <-].
  split_and!; [done..|]. simpl. by rewrite !lookup_insert_eq.
Qed.

(** C8 for two buckets that differ in an unlisted object and in the
    body of the folder marker, from different local file systems. *)
Lemma C8_loader_deterministic_witness :
  let '(ra, wa) :=
    Loader.load_analysis_to_pandas scenario_loads s3_scenario (boot fs_empty) in
  let '(rb, wb) :=
    Loader.load_analysis_to_pandas scenario_loads s3_scenario_more
      (boot fs_used) in
  ra = rb ∧ log wa = log wb
  ∧ ∀ dfa dfb, ra = Ok dfa → rb = Ok dfb →
      Pd.len dfa = Pd.len dfb
      ∧ (list_to_set (columns dfa) : gset string) = list_to_set (columns dfb)
      ∧ dfa = dfb
      ∧ files (fs wa) !! "all_drum_analysis.csv"
        = files (fs wb) !! "all_drum_analysis.csv".
Proof.
  apply (C8_loader_deterministic scenario_loads s3_scenario s3_scenario_more
           fs_empty fs_used).
  - reflexivity.
  - intros contents obj [= <-] Hobj. vm_compute in Hobj.
    repeat (apply elem_of_cons in Hobj as [->|Hobj]; [reflexivity|]).
    by apply elem_of_nil in Hobj.
Defined.

(** C9. The Downloader names the local file of a key by the key's
    final path segment alone: the file is the output directory, a [/] and
    the basename of the key, which is what follows the last [/] of the
    key and holds no [/] itself.  So two keys get the same local file
    exactly when their basenames are equal.  In every run the files
    written are those named after the listed keys that do not end in
    [/]: the number of distinct files written is at most the number of
    such keys, the local files afterwards are the earlier ones and the
    written ones, and after a run without failure a path holds the body
    of the last listed object named like it.  The bound is not always
    reached: for the keys [results/old/a.json] and [results/a.json] one
    file is written, holding the later body. *)
Theorem C9_equal_basenames_share_a_file :
  (∀ key,
     Downloader.local_filename key
     = Downloader.LOCAL_OUTPUT_DIR +:+ "/" +:+ OsPath.basename key
     ∧ Str.contains "/" (OsPath.basename key) = false
     ∧ (OsPath.basename key = key
        ∨ ∃ dir, key = dir +:+ "/" +:+ OsPath.basename key))
  ∧ (∀ key1 key2,
       OsPath.basename key1 = OsPath.basename key2 ↔
       Downloader.local_filename key1 = Downloader.local_filename key2)
  ∧ (∀ (s3 : s3_service) (fs0 : filesystem) (contents : list s3_object),
       list_objects_v2 s3 Downloader.BUCKET_NAME Downloader.S3_PREFIX
         = Some {| Contents := Some contents |} →
       let '(r, w) := Downloader.fetch_s3_results s3 (boot fs0) in
       (∀ path, path ∈ written w →
          ∃ obj, obj ∈ non_folders contents
                 ∧ path = Downloader.LOCAL_OUTPUT_DIR +:+ "/"
                          +:+ OsPath.basename (Key obj))
       ∧ (size (list_to_set (written w) : gset string)
          ≤ length (non_folders contents))%nat
       ∧ dom (files (fs w)) = dom (files fs0) ∪ list_to_set (written w)
       ∧ (r = Ok tt →
          ∀ path obj,
            last (filter (λ o, Downloader.local_filename (Key o) = path)
                    (non_folders contents)) = Some obj →
            files (fs w) !! path
            = Bytes <$> get_object s3 Downloader.BUCKET_NAME (Key obj)))
  ∧ (let '(r, w) := Downloader.fetch_s3_results s3_clash (boot fs_empty) in
     r = Ok tt
     ∧ Key obj_old_a ≠ Key obj_a
     ∧ non_folders [obj_old_a; obj_a] = [obj_old_a; obj_a]
     ∧ written w = ["downloaded_results/a.json"; "downloaded_results/a.json"]
     ∧ size (list_to_set (written w) : gset string) = 1%nat
     ∧ files (fs w) !! "downloaded_results/a.json" = Some (Bytes body_a)).
Proof.
  split_and!.
  - intros key. destruct (basename_spec key) as [Hc Hsplit].
    split_and!; [apply local_filename_inside|done..].
  - intros key1 key2. rewrite !local_filename_inside. split.
    + by intros ->.
    + intros Heq. apply (inj (String.app _)) in Heq.
      by apply (inj (String.app _)) in Heq.
  - intros s3 fs0 contents Hlist.
    destruct (downloader_written s3 fs0 contents Hlist) as (Hw & Hf & Hr).
    destruct (Downloader.fetch_s3_results s3 (boot fs0)) as [r w].
    simpl in Hw, Hf, Hr. split_and!.
    + intros path. rewrite Hw.
      intros (e & He & Hp)%list_elem_of_omap. destruct e; try done.
      injection Hp as ->.
      apply elem_of_download_trace_Write in He as (o & Ho & ->).
      exists o. split; [done|]. apply local_filename_inside.
    + etrans; [apply size_list_to_set_le|].
      rewrite Hw. apply download_writes_length.
    + by rewrite Hf download_files_dom Hw.
    + intros Hok%Hr path obj Hlast.
      by rewrite Hf (download_files_lookup _ _ _ _ Hok) Hlast.
  - rewrite downloader_run. vm_compute. split_and!; done.
Qed.

(** C9 for the keys [results/old/a.json] and [results/a.json]. *)
Lemma C9_equal_basenames_witness :
  Downloader.local_filename "results/old/a.json"
  = Downloader.local_filename "results/a.json"
  ∧ (let '(r, w) := Downloader.fetch_s3_results s3_clash (boot fs_used) in
     (∀ path, path ∈ written w →
        ∃ obj, obj ∈ non_folders [obj_old_a; obj_a]
               ∧ path = Downloader.LOCAL_OUTPUT_DIR +:+ "/"
                        +:+ OsPath.basename (Key obj))
     ∧ (size (list_to_set (written w) : gset string)
        ≤ length (non_folders [obj_old_a; obj_a]))%nat
     ∧ dom (files (fs w)) = dom (files fs_used) ∪ list_to_set (written w)
     ∧ (r = Ok tt →
        ∀ path obj,
          last (filter (λ o, Downloader.local_filename (Key o) = path)
                  (non_folders [obj_old_a; obj_a])) = Some obj →
          files (fs w) !! path
          = Bytes <$> get_object s3_clash Downloader.BUCKET_NAME (Key obj))).
Proof.
  destruct C9_equal_basenames_share_a_file as (_ & Hname & Hrun & _). split.
  - apply Hname. reflexivity.
  - apply (Hrun s3_clash fs_used [obj_old_a; obj_a]). reflexivity.
Defined.

(** C10. The Downloader creates the output directory first: its log
    opens with [makedirs], the listing call comes after it, and whatever
    the object store answers the directory exists when the run is over.
    When the listing has no ["Contents"], the only change to the local
    file system is that directory: no file is written or changed. *)
Theorem C10_output_dir_created_before_listing
    (s3 : s3_service) (fs0 : filesystem) :
  let '(r, w) := Downloader.fetch_s3_results s3 (boot fs0) in
  Downloader.LOCAL_OUTPUT_DIR ∈ dirs (fs w)
  ∧ (∃ rest,
       log w =
         [Makedirs Downloader.LOCAL_OUTPUT_DIR;
          Print (Text "Fetching list of analysis files from S3...");
          S3 (ListObjectsV2 Downloader.BUCKET_NAME Downloader.S3_PREFIX)]
         ++ rest
       ∧ ∀ Bucket Prefix, S3 (ListObjectsV2 Bucket Prefix) ∉ rest)
  ∧ (list_objects_v2 s3 Downloader.BUCKET_NAME Downloader.S3_PREFIX
       = Some {| Contents := None |} →
     written w = []
     ∧ fs w = {| dirs := {[Downloader.LOCAL_OUTPUT_DIR]} ∪ dirs fs0;
                 files := files fs0 |}).
Proof.
  rewrite downloader_run.
  assert (Hnl : ∀ qs Bucket Prefix,
             S3 (ListObjectsV2 Bucket Prefix) ∉ download_trace s3 qs).
  { intros qs Bucket Prefix. induction qs as [|o qs IH]; simpl.
    - apply not_elem_of_nil.
    - rewrite !not_elem_of_cons. split_and!; [done..|].
      destruct (get_object s3 _ _); [|apply not_elem_of_nil].
      by rewrite not_elem_of_cons. }
  destruct (list_objects_v2 s3 _ _) as [[[contents|]]|]; simpl.
  - destruct (download_result s3 (non_folders contents)) eqn:Hr; simpl.
    + split_and!; [set_solver| |done].
      eexists. split; [done|]. intros Bucket Prefix.
      rewrite not_elem_of_app not_elem_of_cons. split_and!; [done..|].
      apply not_elem_of_nil.
    + split_and!; [set_solver| |done]. eexists. split; [done|]. done.
    + split_and!; [set_solver| |done]. eexists. split; [done|]. done.
  - split_and!; [set_solver| |done].
    eexists. split; [done|]. intros Bucket Prefix.
    rewrite not_elem_of_cons. split; [done|]. apply not_elem_of_nil.
  - split_and!; [set_solver| |done].
    exists []. split; [done|]. intros ??. apply not_elem_of_nil.
Qed.

(** C10 on a bucket with nothing under the prefix and an empty local
    file system. *)
Lemma C10_output_dir_witness :
  let '(r, w) := Downloader.fetch_s3_results s3_empty (boot fs_empty) in
  written w = []
  ∧ fs w = {| dirs := {[Downloader.LOCAL_OUTPUT_DIR]} ∪ dirs fs_empty;
              files := files fs_empty |}.
Proof.
  pose proof (C10_output_dir_created_before_listing s3_empty fs_empty) as H.
  destruct (Downloader.fetch_s3_results s3_empty (boot fs_empty)) as [r w].
  destruct H as (_ & _ & H). apply H. reflexivity.
Defined.

(** ** More about the Downloader *)

Section DownloaderFacts.

Variable s3 : s3_service.

Lemma download_files_downloaded (qs : list s3_object) (m : gmap string content) :
  download_files s3 qs m = download_files s3 (downloaded s3 qs) m.
Proof.
  revert m. induction qs as [|o qs IH]; intros m; simpl; [done|].
  destruct (get_object s3 _ (Key o)) as [body|] eqn:Hb; simpl; [|done].
  by rewrite Hb.
Qed.

Lemma download_result_downloaded (qs : list s3_object) :
  download_result s3 (downloaded s3 qs) = Ok tt.
Proof.
  induction qs as [|o qs IH]; simpl; [done|].
  destruct (get_object s3 _ (Key o)) as [body|] eqn:Hb; simpl; [|done].
  by rewrite Hb.
Qed.

Lemma download_trace_writes (qs : list s3_object) :
  omap (λ e, match e with Write p => Some p | _ => None end)
    (download_trace s3 qs)
  = Downloader.local_filename ∘ Key <$> downloaded s3 qs.
Proof.
  induction qs as [|o qs IH]; csimpl; [done|].
  destruct (get_object s3 _ (Key o)); csimpl; [|done]. by rewrite IH.
Qed.

(** The attempted downloads: those that went through and the one that
    failed, if any. *)
Lemma download_trace_calls (qs : list s3_object) :
  omap (λ e, match e with S3 c => Some c | _ => None end)
    (download_trace s3 qs)
  = download_call <$> take (S (length (downloaded s3 qs))) qs.
Proof.
  induction qs as [|o qs IH]; csimpl; [done|].
  destruct (get_object s3 _ (Key o)); csimpl; [|done].
  by rewrite IH.
Qed.

Lemma download_trace_lines (qs : list s3_object) :
  omap (λ e, match e with Print (Text s) => Some s | _ => None end)
    (download_trace s3 qs)
  = download_line <$> take (S (length (downloaded s3 qs))) qs.
Proof.
  induction qs as [|o qs IH]; csimpl; [done|].
  destruct (get_object s3 _ (Key o)); csimpl; [|done].
  by rewrite IH.
Qed.

Lemma downloaded_all (qs : list s3_object) :
  (∀ o, o ∈ qs → is_Some (get_object s3 Downloader.BUCKET_NAME (Key o))) →
  downloaded s3 qs = qs.
Proof.
  induction qs as [|o qs IH]; intros Hall; simpl; [done|].
  destruct (Hall o) as [body ->]; [apply list_elem_of_here|].
  rewrite IH; [|done]. intros o' Ho'. apply Hall. by apply list_elem_of_further.
Qed.

Lemma downloaded_until (done later : list s3_object) (failing : s3_object) :
  (∀ o, o ∈ done → is_Some (get_object s3 Downloader.BUCKET_NAME (Key o))) →
  get_object s3 Downloader.BUCKET_NAME (Key failing) = None →
  downloaded s3 (done ++ failing :: later) = done
  ∧ download_result s3 (done ++ failing :: later) = Raised ClientError.
Proof.
  intros Hall Hfail. induction done as [|o done IH]; simpl.
  - by rewrite Hfail.
  - destruct (Hall o) as [body ->]; [apply list_elem_of_here|].
    destruct IH as [-> ->]; [|done].
    intros o' Ho'. apply Hall. by apply list_elem_of_further.
Qed.

(** What a path holds after the loop, whether or not it was cut short. *)
Lemma download_files_lookup_any (qs : list s3_object)
    (m : gmap string content) (path : string) :
  download_files s3 qs m !! path =
  match last (filter (λ o, Downloader.local_filename (Key o) = path)
                (downloaded s3 qs)) with
  | Some o => Bytes <$> get_object s3 Downloader.BUCKET_NAME (Key o)
  | None => m !! path
  end.
Proof.
  rewrite download_files_downloaded.
  apply download_files_lookup, download_result_downloaded.
Qed.

Lemma download_files_twice (qs : list s3_object) (m : gmap string content) :
  download_files s3 qs (download_files s3 qs m) = download_files s3 qs m.
Proof.
  apply map_eq. intros path. rewrite (download_files_lookup_any qs (download_files _ _ _)).
  rewrite (download_files_lookup_any qs m).
  by destruct (last _).
Qed.

(** The effects of a whole run, whatever the listing call gives. *)
Lemma downloader_run_effects (fs0 : filesystem) :
  let w := (Downloader.fetch_s3_results s3 (boot fs0)).2 in
  let qs := non_folders (listed s3 Downloader.BUCKET_NAME Downloader.S3_PREFIX) in
  written w = (Downloader.local_filename ∘ Key <$> downloaded s3 qs)
  ∧ files (fs w) = download_files s3 qs (files fs0)
  ∧ dirs (fs w) = {[Downloader.LOCAL_OUTPUT_DIR]} ∪ dirs fs0.
Proof.
  rewrite downloader_run. unfold listed, written.
  destruct (list_objects_v2 s3 _ _) as [[[contents|]]|]; csimpl; [|done..].
  rewrite -download_trace_writes.
  destruct (download_result s3 (non_folders contents)); csimpl;
    rewrite ?omap_app ?app_nil_r; done.
Qed.

End DownloaderFacts.

Lemma filter_same_image {A B} `{EqDecision B} (f : A → B) (l : list A) (x : A) :
  NoDup (f <$> l) → x ∈ l → filter (λ y, f y = f x) l = [x].
Proof.
  induction l as [|a l IH]; [by intros _ ?%elem_of_nil|].
  rewrite fmap_cons NoDup_cons. intros [Ha Hnd] Hx.
  assert (Hnone : ∀ y, f y = f a → y ∈ l → False).
  { intros y Hy Hin. apply Ha. rewrite -Hy. by apply list_elem_of_fmap_2. }
  apply elem_of_cons in Hx as [->|Hx].
  - rewrite filter_cons_True; [done|]. f_equal.
    destruct (filter (λ y, f y = f a) l) as [|y ys] eqn:Hf; [done|].
    assert (Hy : y ∈ filter (λ y, f y = f a) l) by (rewrite Hf; apply list_elem_of_here).
    apply list_elem_of_filter in Hy as [Hy Hin]. by destruct (Hnone y).
  - rewrite filter_cons_False; [|by apply IH].
    intros Heq. by apply (Hnone x).
Qed.

(** X1. Every file the Downloader writes lies directly in the output
    directory: its path is the directory, a [/] and the final segment of
    a listed key that does not end in [/], and that segment holds no [/],
    whatever the key looks like. *)
Theorem X1_downloads_stay_in_output_dir
    (s3 : s3_service) (fs0 : filesystem) (path : string) :
  path ∈ written (Downloader.fetch_s3_results s3 (boot fs0)).2 →
  ∃ contents obj,
    list_objects_v2 s3 Downloader.BUCKET_NAME Downloader.S3_PREFIX
      = Some {| Contents := Some contents |}
    ∧ obj ∈ contents ∧ Str.endswith (Key obj) "/" = false
    ∧ path = Downloader.LOCAL_OUTPUT_DIR +:+ "/" +:+ OsPath.basename (Key obj)
    ∧ Str.contains "/" (OsPath.basename (Key obj)) = false.
Proof.
  destruct (downloader_run_effects s3 fs0) as (-> & _ & _).
  intros (o & -> & Ho)%list_elem_of_fmap. unfold listed in Ho.
  destruct (list_objects_v2 s3 _ _) as [[[contents|]]|];
    try (by apply elem_of_nil in Ho).
  assert (Hq : o ∈ non_folders contents).
  { clear -Ho. induction (non_folders contents) as [|a l IH]; simpl in Ho;
      [by apply elem_of_nil in Ho|].
    destruct (get_object s3 _ (Key a)); [|by apply elem_of_nil in Ho].
    apply elem_of_cons in Ho as [->|Ho]; [apply list_elem_of_here|].
    apply list_elem_of_further. by apply IH. }
  apply list_elem_of_filter in Hq as [Hnf Hin].
  exists contents, o. split_and!; [done..| |].
  - apply local_filename_inside.
  - by destruct (basename_spec (Key o)).
Qed.

(** X1 for the text file of [s3_mixed]. *)
Lemma X1_downloads_stay_witness :
  ∃ contents obj,
    list_objects_v2 s3_mixed Downloader.BUCKET_NAME Downloader.S3_PREFIX
      = Some {| Contents := Some contents |}
    ∧ obj ∈ contents ∧ Str.endswith (Key obj) "/" = false
    ∧ "downloaded_results/notes.txt"
      = Downloader.LOCAL_OUTPUT_DIR +:+ "/" +:+ OsPath.basename (Key obj)
    ∧ Str.contains "/" (OsPath.basename (Key obj)) = false.
Proof.
  apply (X1_downloads_stay_in_output_dir s3_mixed fs_empty
           "downloaded_results/notes.txt").
  apply (bool_decide_unpack _). vm_compute. exact I.
Defined.

(** X2. When the listed keys that do not end in [/] have pairwise
    different local file names and each of them can be fetched, the run
    ends normally and afterwards the local file of each holds exactly the
    body stored under its key. *)
Theorem X2_local_files_hold_the_bodies
    (s3 : s3_service) (fs0 : filesystem) (contents : list s3_object) :
  list_objects_v2 s3 Downloader.BUCKET_NAME Downloader.S3_PREFIX
    = Some {| Contents := Some contents |} →
  NoDup (Downloader.local_filename ∘ Key <$> non_folders contents) →
  (∀ obj, obj ∈ contents → Str.endswith (Key obj) "/" = false →
     is_Some (get_object s3 Downloader.BUCKET_NAME (Key obj))) →
  let '(r, w) := Downloader.fetch_s3_results s3 (boot fs0) in
  r = Ok tt
  ∧ ∀ obj, obj ∈ contents → Str.endswith (Key obj) "/" = false →
      ∃ body, get_object s3 Downloader.BUCKET_NAME (Key obj) = Some body
              ∧ files (fs w) !! Downloader.local_filename (Key obj)
                = Some (Bytes body).
Proof.
  intros Hlist Hnd Hall.
  destruct (downloader_written s3 fs0 contents Hlist) as (_ & Hf & Hr).
  destruct (Downloader.fetch_s3_results s3 (boot fs0)) as [r w].
  simpl in Hf, Hr.
  assert (Hok : download_result s3 (non_folders contents) = Ok tt).
  { apply download_result_total.
    intros o [Ho Hin]%list_elem_of_filter. by apply Hall. }
  split; [by apply Hr|]. intros obj Hin Hnf.
  destruct (Hall obj Hin Hnf) as [body Hbody]. exists body. split; [done|].
  rewrite Hf (download_files_lookup _ _ _ _ Hok).
  rewrite (filter_same_image (Downloader.local_filename ∘ Key) _ obj Hnd);
    [by apply list_elem_of_filter|].
  simpl. by rewrite Hbody.
Qed.

(** X2 on a listing with a folder marker, a text file and two analysis
    files, over files of earlier runs. *)
Lemma X2_local_files_witness :
  let '(r, w) := Downloader.fetch_s3_results s3_mixed (boot fs_used) in
  r = Ok tt
  ∧ ∀ obj, obj ∈ [obj_marker; obj_a; obj_notes; obj_b] →
      Str.endswith (Key obj) "/" = false →
      ∃ body, get_object s3_mixed Downloader.BUCKET_NAME (Key obj) = Some body
              ∧ files (fs w) !! Downloader.local_filename (Key obj)
                = Some (Bytes body).
Proof.
  apply (X2_local_files_hold_the_bodies s3_mixed fs_used
           [obj_marker; obj_a; obj_notes; obj_b]).
  - reflexivity.
  - apply (bool_decide_unpack _). vm_compute. exact I.
  - intros obj Hobj Hkey.
    repeat (apply elem_of_cons in Hobj as [->|Hobj]; [by vm_compute; eauto|]).
    by apply elem_of_nil in Hobj.
Defined.

(** X3. Whatever the object store answers, a Downloader run adds the
    output directory to the directories and changes nothing else there;
    every file it did not write is as it was, and no file is removed. *)
Theorem X3_downloader_leaves_other_files
    (s3 : s3_service) (fs0 : filesystem) :
  let '(r, w) := Downloader.fetch_s3_results s3 (boot fs0) in
  dirs (fs w) = {[Downloader.LOCAL_OUTPUT_DIR]} ∪ dirs fs0
  ∧ (∀ path, path ∉ written w → files (fs w) !! path = files fs0 !! path)
  ∧ dom (files fs0) ⊆ dom (files (fs w)).
Proof.
  destruct (downloader_run_effects s3 fs0) as (Hw & Hf & Hd).
  destruct (Downloader.fetch_s3_results s3 (boot fs0)) as [r w].
  simpl in Hw, Hf, Hd. split_and!; [done| |].
  - intros path Hpath. rewrite Hf download_files_lookup_any.
    destruct (last _) as [o|] eqn:Hlast; [|done].
    apply last_Some_elem_of, list_elem_of_filter in Hlast as [Hp Ho].
    destruct Hpath. rewrite Hw -Hp.
    by apply (list_elem_of_fmap_2 (Downloader.local_filename ∘ Key)).
  - rewrite Hf download_files_dom. set_solver.
Qed.

(** X3 for the table file of an earlier Loader run. *)
Lemma X3_downloader_leaves_witness :
  let '(r, w) := Downloader.fetch_s3_results s3_mixed (boot fs_used) in
  files (fs w) !! "all_drum_analysis.csv"
  = files fs_used !! "all_drum_analysis.csv".
Proof.
  pose proof (X3_downloader_leaves_other_files s3_mixed fs_used) as H.
  destruct (Downloader.fetch_s3_results s3_mixed (boot fs_used)) as [r w] eqn:Hrun.
  destruct H as (_ & H & _). apply H.
  assert (w = (Downloader.fetch_s3_results s3_mixed (boot fs_used)).2) as ->
    by by rewrite Hrun.
  apply (bool_decide_unpack _). vm_compute. exact I.
Defined.

(** X4. The Downloader stops at the first object it cannot fetch: the
    run ends with the storage error and a non-zero status, the objects
    before the failing one have been downloaded and written, the failing
    one has been asked for, none after it has, and the completion line is
    not printed. *)
Theorem X4_downloader_stops_at_first_failure
    (s3 : s3_service) (fs0 : filesystem)
    (contents done later : list s3_object) (failing : s3_object) :
  list_objects_v2 s3 Downloader.BUCKET_NAME Downloader.S3_PREFIX
    = Some {| Contents := Some contents |} →
  non_folders contents = done ++ failing :: later →
  (∀ obj, obj ∈ done →
     is_Some (get_object s3 Downloader.BUCKET_NAME (Key obj))) →
  get_object s3 Downloader.BUCKET_NAME (Key failing) = None →
  let '(r, w) := Downloader.fetch_s3_results s3 (boot fs0) in
  r = Raised ClientError ∧ exit_status r = 1%Z
  ∧ s3_calls w
    = ListObjectsV2 Downloader.BUCKET_NAME Downloader.S3_PREFIX
      :: (download_call <$> done ++ [failing])
  ∧ written w = (Downloader.local_filename ∘ Key <$> done)
  ∧ ("✅ All analysis files downloaded successfully." ∉ stdout_text w).
Proof.
  intros Hlist Hsplit Hdone Hfail.
  destruct (downloaded_until s3 done later failing Hdone Hfail) as [Hd Hr].
  pose proof (download_trace_calls s3 (non_folders contents)) as Hcalls.
  pose proof (download_trace_writes s3 (non_folders contents)) as Hwrites.
  pose proof (download_trace_lines s3 (non_folders contents)) as Hlines.
  rewrite Hsplit Hd in Hcalls, Hwrites, Hlines.
  assert (Htake : take (S (length done)) (done ++ failing :: later)
                  = done ++ [failing]).
  { rewrite cons_middle app_assoc. apply take_app_length'.
    rewrite List.length_app /=. lia. }
  rewrite Htake in Hcalls, Hlines.
  rewrite downloader_run Hlist /= Hsplit Hr.
  unfold s3_calls, written, stdout_text. csimpl. rewrite Hcalls Hwrites Hlines.
  split_and!; [done..|].
  rewrite not_elem_of_cons. split; [done|].
  intros (o & Hline & _)%list_elem_of_fmap. discriminate Hline.
Qed.

(** X4 on a bucket whose listed text file cannot be fetched. *)
Lemma X4_downloader_stops_witness :
  let '(r, w) := Downloader.fetch_s3_results s3_missing_notes (boot fs_empty) in
  r = Raised ClientError ∧ exit_status r = 1%Z
  ∧ s3_calls w
    = ListObjectsV2 Downloader.BUCKET_NAME Downloader.S3_PREFIX
      :: (download_call <$> [obj_a] ++ [obj_notes])
  ∧ written w = (Downloader.local_filename ∘ Key <$> [obj_a])
  ∧ ("✅ All analysis files downloaded successfully." ∉ stdout_text w).
Proof.
  apply (X4_downloader_stops_at_first_failure s3_missing_notes fs_empty
           [obj_marker; obj_a; obj_notes; obj_b] [obj_a] [obj_b] obj_notes).
  - reflexivity.
  - reflexivity.
  - intros obj ->%list_elem_of_singleton. by vm_compute; eauto.
  - reflexivity.
Defined.

(** X5. Running the Downloader again on the file system a run left
    changes nothing: the second run ends the same way and leaves the same
    directories and the same files with the same contents. *)
Theorem X5_downloader_rerun_changes_nothing
    (s3 : s3_service) (fs0 : filesystem) :
  let '(r1, w1) := Downloader.fetch_s3_results s3 (boot fs0) in
  let '(r2, w2) := Downloader.fetch_s3_results s3 (boot (fs w1)) in
  r2 = r1 ∧ log w2 = log w1 ∧ fs w2 = fs w1.
Proof.
  pose proof (downloader_run_effects s3 fs0) as (_ & Hf1 & Hd1).
  pose proof (downloader_run s3 fs0) as Hrun1.
  destruct (Downloader.fetch_s3_results s3 (boot fs0)) as [r1 w1].
  simpl in Hf1, Hd1.
  pose proof (downloader_run_effects s3 (fs w1)) as (_ & Hf2 & Hd2).
  pose proof (downloader_run s3 (fs w1)) as Hrun2.
  destruct (Downloader.fetch_s3_results s3 (boot (fs w1))) as [r2 w2].
  simpl in Hf2, Hd2.
  assert (Hfs : fs w2 = fs w1).
  { destruct (fs w2) as [d2 f2], (fs w1) as [d1 f1]. simpl in *. f_equal.
    - rewrite Hd2 Hd1. set_solver.
    - by rewrite Hf2 Hf1 download_files_twice. }
  split_and!; [| |done].
  - revert Hrun1 Hrun2. simpl.
    destruct (list_objects_v2 s3 _ _) as [[[contents|]]|];
      [destruct (download_result s3 (non_folders contents))|..];
      intros [= -> _] [= -> _]; done.
  - revert Hrun1 Hrun2. simpl.
    destruct (list_objects_v2 s3 _ _) as [[[contents|]]|];
      [destruct (download_result s3 (non_folders contents))|..];
      intros [= _ ->] [= _ ->]; done.
Qed.

(** X6. When every listed object that is not a folder marker can be
    fetched, the Downloader downloads each of them exactly once, in
    listing order, after a single listing call, and prints one progress
    line per object between its opening and its completion line. *)
Theorem X6_downloader_downloads_each_once
    (s3 : s3_service) (fs0 : filesystem) (contents : list s3_object) :
  list_objects_v2 s3 Downloader.BUCKET_NAME Downloader.S3_PREFIX
    = Some {| Contents := Some contents |} →
  (∀ obj, obj ∈ contents → Str.endswith (Key obj) "/" = false →
     is_Some (get_object s3 Downloader.BUCKET_NAME (Key obj))) →
  let '(r, w) := Downloader.fetch_s3_results s3 (boot fs0) in
  r = Ok tt
  ∧ s3_calls w
    = ListObjectsV2 Downloader.BUCKET_NAME Downloader.S3_PREFIX
      :: (download_call <$> non_folders contents)
  ∧ written w = (Downloader.local_filename ∘ Key <$> non_folders contents)
  ∧ stdout_text w
    = "Fetching list of analysis files from S3..."
      :: (download_line <$> non_folders contents)
      ++ ["✅ All analysis files downloaded successfully."].
Proof.
  intros Hlist Hall.
  assert (Hq : ∀ o, o ∈ non_folders contents →
                    is_Some (get_object s3 Downloader.BUCKET_NAME (Key o))).
  { intros o [Ho Hin]%list_elem_of_filter. by apply Hall. }
  pose proof (download_trace_calls s3 (non_folders contents)) as Hcalls.
  pose proof (download_trace_writes s3 (non_folders contents)) as Hwrites.
  pose proof (download_trace_lines s3 (non_folders contents)) as Hlines.
  rewrite (downloaded_all s3 _ Hq) in Hcalls, Hwrites, Hlines.
  rewrite take_ge in Hcalls; [lia|]. rewrite take_ge in Hlines; [lia|].
  rewrite downloader_run Hlist /= (download_result_total s3 _ Hq).
  unfold s3_calls, written, stdout_text. csimpl.
  rewrite !omap_app Hcalls Hwrites Hlines. csimpl.
  by rewrite !app_nil_r.
Qed.

(** X6 on a listing with a folder marker, a text file and two analysis
    files. *)
Lemma X6_downloader_downloads_witness :
  let '(r, w) := Downloader.fetch_s3_results s3_mixed (boot fs_empty) in
  r = Ok tt
  ∧ s3_calls w
    = ListObjectsV2 Downloader.BUCKET_NAME Downloader.S3_PREFIX
      :: (download_call <$> non_folders [obj_marker; obj_a; obj_notes; obj_b])
  ∧ written w
    = (Downloader.local_filename ∘ Key
         <$> non_folders [obj_marker; obj_a; obj_notes; obj_b])
  ∧ stdout_text w
    = "Fetching list of analysis files from S3..."
      :: (download_line <$> non_folders [obj_marker; obj_a; obj_notes; obj_b])
      ++ ["✅ All analysis files downloaded successfully."].
Proof.
  apply (X6_downloader_downloads_each_once s3_mixed fs_empty
           [obj_marker; obj_a; obj_notes; obj_b]).
  - reflexivity.
  - intros obj Hobj Hkey.
    repeat (apply elem_of_cons in Hobj as [->|Hobj]; [by vm_compute; eauto|]).
    by apply elem_of_nil in Hobj.
Defined.

(** ** More about the Loader *)

Section LoaderFacts.

Variable json_loads : string → option pyval.
Variable s3 : s3_service.

Lemma loader_trace_writes (qs : list s3_object) :
  omap (λ e, match e with Write p => Some p | _ => None end)
    (loader_trace json_loads s3 qs) = [].
Proof.
  induction qs as [|o qs IH]; csimpl; [done|].
  by destruct (record_of json_loads s3 o).
Qed.

Lemma loader_trace_complete (qs : list s3_object) (ds : list dict) :
  records_of json_loads s3 qs = inr ds →
  omap (λ e, match e with S3 c => Some c | _ => None end)
    (loader_trace json_loads s3 qs) = (load_call <$> qs)
  ∧ omap (λ e, match e with Print p => Some p | _ => None end)
      (loader_trace json_loads s3 qs) = (Text ∘ load_line <$> qs).
Proof.
  revert ds. induction qs as [|o qs IH]; intros ds; csimpl; [done|].
  destruct (record_of json_loads s3 o) as [e|d]; [done|].
  destruct (records_of json_loads s3 qs) as [e|ds']; [done|].
  intros _. destruct (IH ds' eq_refl) as [-> ->]. done.
Qed.

Lemma loader_until (done later : list s3_object) (failing : s3_object) e :
  (∀ o, o ∈ done → ∃ d, record_of json_loads s3 o = inr d) →
  record_of json_loads s3 failing = inl e →
  records_of json_loads s3 (done ++ failing :: later) = inl e
  ∧ omap (λ e, match e with S3 c => Some c | _ => None end)
      (loader_trace json_loads s3 (done ++ failing :: later))
    = (load_call <$> done ++ [failing])
  ∧ omap (λ e, match e with Print (Text s) => Some s | _ => None end)
      (loader_trace json_loads s3 (done ++ failing :: later))
    = (load_line <$> done ++ [failing]).
Proof.
  intros Hall Hfail. induction done as [|o done IH]; csimpl.
  - by rewrite Hfail.
  - destruct (Hall o) as [d ->]; [apply list_elem_of_here|].
    destruct IH as (-> & -> & ->); [|done].
    intros o' Ho'. apply Hall. by apply list_elem_of_further.
Qed.

End LoaderFacts.

(** X7. Whatever the object store holds, the Loader creates no
    directory and touches no file other than [all_drum_analysis.csv].
    That file is written exactly when the run returns a table, and then
    holds that table, replacing what was there; a run that stops early or
    fails leaves the file system as it found it. *)
Theorem X7_loader_touches_only_its_csv
    (json_loads : string → option pyval) (s3 : s3_service) (fs0 : filesystem) :
  let '(r, w) := Loader.load_analysis_to_pandas json_loads s3 (boot fs0) in
  dirs (fs w) = dirs fs0
  ∧ (∀ path, path ≠ "all_drum_analysis.csv" →
       files (fs w) !! path = files fs0 !! path)
  ∧ match r with
    | Ok df => written w = ["all_drum_analysis.csv"]
               ∧ files (fs w) !! "all_drum_analysis.csv" = Some (CsvNoIndex df)
    | _ => written w = [] ∧ fs w = fs0
    end.
Proof.
  rewrite loader_run. simpl. unfold written.
  destruct (list_objects_v2 s3 _ _) as [[[contents|]]|]; csimpl; [|done..].
  destruct (records_of json_loads s3 (json_objects contents)); csimpl.
  - by rewrite loader_trace_writes.
  - rewrite omap_app loader_trace_writes. csimpl.
    split_and!; [done| |done|by rewrite lookup_insert_eq].
    intros path Hpath. by rewrite lookup_insert_ne.
Qed.

(** X7 for a file downloaded earlier. *)
Lemma X7_loader_touches_witness :
  let '(r, w) :=
    Loader.load_analysis_to_pandas scenario_loads s3_scenario (boot fs_used) in
  files (fs w) !! "downloaded_results/a.json"
  = files fs_used !! "downloaded_results/a.json".
Proof.
  pose proof (X7_loader_touches_only_its_csv scenario_loads s3_scenario fs_used)
    as H.
  destruct (Loader.load_analysis_to_pandas scenario_loads s3_scenario
              (boot fs_used)) as [r w].
  destruct H as (_ & H & _). apply H. done.
Defined.

(** X8. The Loader stops at the first [.json] object it cannot turn into
    a record: a fetch that fails ends the run with the storage error, a
    body that is not JSON with the decoding error, a body that is JSON
    but not an object with a type error.  The status is non-zero, the
    objects up to the failing one have been fetched and none after it,
    and nothing is written: the records read so far are lost. *)
Theorem X8_loader_stops_at_first_failure
    (json_loads : string → option pyval) (s3 : s3_service) (fs0 : filesystem)
    (contents done later : list s3_object) (failing : s3_object) (e : exn) :
  list_objects_v2 s3 Loader.S3_BUCKET Loader.RESULTS_PREFIX
    = Some {| Contents := Some contents |} →
  json_objects contents = done ++ failing :: later →
  (∀ obj, obj ∈ done →
     ∃ raw d0, get_object s3 Loader.S3_BUCKET (Key obj) = Some raw
               ∧ json_loads raw = Some (PDict d0)) →
  (get_object s3 Loader.S3_BUCKET (Key failing) = None ∧ e = ClientError)
  ∨ (∃ raw, get_object s3 Loader.S3_BUCKET (Key failing) = Some raw
            ∧ ((json_loads raw = None ∧ e = JSONDecodeError)
               ∨ (∃ v, json_loads raw = Some v ∧ (∀ d, v ≠ PDict d)
                       ∧ e = TypeError))) →
  let '(r, w) := Loader.load_analysis_to_pandas json_loads s3 (boot fs0) in
  r = Raised e ∧ exit_status r = 1%Z
  ∧ s3_calls w
    = ListObjectsV2 Loader.S3_BUCKET Loader.RESULTS_PREFIX
      :: (load_call <$> done ++ [failing])
  ∧ stdout_text w
    = "Fetching analysis files from S3..." :: (load_line <$> done ++ [failing])
  ∧ written w = [] ∧ fs w = fs0.
Proof.
  intros Hlist Hsplit Hdone Hcause.
  assert (Hfail : record_of json_loads s3 failing = inl e).
  { unfold record_of.
    destruct Hcause as [[-> ->]|(raw & -> & [[-> ->]|(v & -> & Hv & ->)])];
      [done..|].
    destruct v; try done. by destruct (Hv items). }
  assert (Hgood : ∀ o, o ∈ done → ∃ d, record_of json_loads s3 o = inr d).
  { intros o (raw & d0 & Hraw & Hd0)%Hdone. eexists.
    apply record_of_inr. by exists raw, d0. }
  destruct (loader_until json_loads s3 done later failing e Hgood Hfail)
    as (Hr & Hcalls & Hlines).
  rewrite loader_run Hlist /= Hsplit Hr.
  unfold s3_calls, written, stdout_text. csimpl.
  by rewrite Hcalls Hlines loader_trace_writes.
Qed.

(** X8 on a bucket whose second analysis file is not JSON. *)
Lemma X8_loader_stops_witness :
  let '(r, w) :=
    Loader.load_analysis_to_pandas scenario_loads s3_malformed (boot fs_used) in
  r = Raised JSONDecodeError ∧ exit_status r = 1%Z
  ∧ s3_calls w
    = ListObjectsV2 Loader.S3_BUCKET Loader.RESULTS_PREFIX
      :: (load_call <$> [obj_a] ++ [obj_b])
  ∧ stdout_text w
    = "Fetching analysis files from S3..." :: (load_line <$> [obj_a] ++ [obj_b])
  ∧ written w = [] ∧ fs w = fs_used.
Proof.
  apply (X8_loader_stops_at_first_failure scenario_loads s3_malformed fs_used
           [obj_a; obj_b; obj_shadow] [obj_a] [obj_shadow] obj_b JSONDecodeError).
  - reflexivity.
  - reflexivity.
  - intros obj ->%list_elem_of_singleton. by eexists _, _.
  - right. exists "bpm=95". split; [reflexivity|]. left. by split.
Defined.

(** X9. The Loader loses no field of a body: in the table it returns,
    the row of the [i]-th [.json] object holds, under every field name of
    the parsed body other than the two injected names, the value the body
    has there. *)
Theorem X9_body_fields_reach_the_table
    (json_loads : string → option pyval) (s3 : s3_service) (fs0 : filesystem)
    (contents : list s3_object) (df : DataFrame) (w : world)
    (i : nat) (obj : s3_object) (raw : string) (body : dict)
    (field : string) (v : pyval) :
  list_objects_v2 s3 Loader.S3_BUCKET Loader.RESULTS_PREFIX
    = Some {| Contents := Some contents |} →
  Loader.load_analysis_to_pandas json_loads s3 (boot fs0) = (Ok df, w) →
  json_objects contents !! i = Some obj →
  get_object s3 Loader.S3_BUCKET (Key obj) = Some raw →
  json_loads raw = Some (PDict body) →
  field ≠ "s3_key" → field ≠ "analysis_timestamp" →
  Dict.get field body = Some v →
  Pd.at_ df i field = Some (Val v).
Proof.
  intros Hlist (contents' & ds & Hlist' & Hds & ->)%loader_Ok_inv
    Hi Hraw Hbody Hk Ht Hget.
  assert (contents' = contents) as -> by congruence.
  pose proof Hds as HF%records_of_inr.
  destruct (Forall2_lookup_l _ _ _ _ _ HF Hi) as (d & Hd & Hrec).
  apply record_of_inr in Hrec as (raw' & body' & Hraw' & Hbody' & ->).
  assert (raw' = raw) as -> by congruence.
  assert (body' = body) as -> by congruence.
  assert (Hfield : Dict.get field
            (Dict.setitem "analysis_timestamp" (PDatetime (LastModified obj))
               (Dict.setitem "s3_key" (PStr (Key obj)) body)) = Some v).
  { rewrite get_setitem_ne; [done|]. by rewrite get_setitem_ne. }
  rewrite (at_DataFrame_of ds i _ field Hd).
  - simpl. apply elem_of_union_of_keys. eexists. split.
    + by eapply list_elem_of_lookup_2.
    + apply get_is_Some. by rewrite Hfield.
  - unfold Pd.cell_of. by rewrite Hfield.
Qed.

(** X9 for the [genre] of [results/b.json]. *)
Lemma X9_body_fields_witness :
  Pd.at_ table_scenario 1 "genre" = Some (Val (PStr "rock")).
Proof.
  eapply (X9_body_fields_reach_the_table scenario_loads s3_scenario fs_empty
            [obj_a; obj_b; obj_marker] table_scenario _ 1 obj_b body_b record_b
            "genre" (PStr "rock")); try done.
  vm_compute. reflexivity.
Defined.

(** X10. Running the Loader again on the file system a run left changes
    nothing: the second run ends the same way, with the same table if
    there is one, and leaves the same files with the same contents. *)
Theorem X10_loader_rerun_changes_nothing
    (json_loads : string → option pyval) (s3 : s3_service) (fs0 : filesystem) :
  let '(r1, w1) := Loader.load_analysis_to_pandas json_loads s3 (boot fs0) in
  let '(r2, w2) := Loader.load_analysis_to_pandas json_loads s3 (boot (fs w1)) in
  r2 = r1 ∧ log w2 = log w1 ∧ fs w2 = fs w1.
Proof.
  rewrite (loader_run json_loads s3 fs0). simpl.
  destruct (list_objects_v2 s3 _ _) as [[[contents|]]|] eqn:Hlist.
  - destruct (records_of json_loads s3 (json_objects contents)) as [e|ds] eqn:Hds;
      rewrite loader_run Hlist /= Hds; [done|].
    split_and!; [done..|]. by rewrite insert_insert_eq.
  - by rewrite loader_run Hlist.
  - by rewrite loader_run Hlist.
Qed.

(** X11. The Loader reads a subset of what the Downloader copies: when
    every listed object that is not a folder marker can be fetched, each
    key the Loader fetches is a key the Downloader downloads. *)
Theorem X11_loaded_keys_are_downloaded
    (json_loads : string → option pyval) (s3 : s3_service)
    (fs0 fs1 : filesystem) (contents : list s3_object) (key : string) :
  list_objects_v2 s3 Downloader.BUCKET_NAME Downloader.S3_PREFIX
    = Some {| Contents := Some contents |} →
  (∀ obj, obj ∈ contents → Str.endswith (Key obj) "/" = false →
     is_Some (get_object s3 Downloader.BUCKET_NAME (Key obj))) →
  GetObject Loader.S3_BUCKET key
    ∈ s3_calls (Loader.load_analysis_to_pandas json_loads s3 (boot fs0)).2 →
  DownloadFile Downloader.BUCKET_NAME key (Downloader.local_filename key)
    ∈ s3_calls (Downloader.fetch_s3_results s3 (boot fs1)).2.
Proof.
  intros Hlist Hall Hget.
  assert (Hobj : ∃ o, o ∈ json_objects contents ∧ key = Key o).
  { apply elem_of_s3_calls in Hget. revert Hget.
    rewrite loader_run. simpl.
    change (list_objects_v2 s3 Loader.S3_BUCKET Loader.RESULTS_PREFIX)
      with (list_objects_v2 s3 Downloader.BUCKET_NAME Downloader.S3_PREFIX).
    rewrite Hlist.
    destruct (records_of json_loads s3 (json_objects contents)); simpl;
      rewrite ?elem_of_cons ?elem_of_app ?elem_of_cons ?elem_of_nil;
      intros H; apply (elem_of_loader_trace json_loads s3 _ Loader.S3_BUCKET);
      naive_solver. }
  destruct Hobj as (o & [Hj Hin]%list_elem_of_filter & ->).
  assert (Hq : o ∈ non_folders contents).
  { apply list_elem_of_filter. split; [by apply json_not_folder|done]. }
  assert (Hok : download_result s3 (non_folders contents) = Ok tt).
  { apply download_result_total.
    intros o' [Ho' Hin']%list_elem_of_filter. by apply Hall. }
  destruct (download_trace_complete s3 _ _ Hok Hq) as [Hcall _].
  apply elem_of_s3_calls. rewrite downloader_run Hlist /= Hok. simpl.
  rewrite !elem_of_cons elem_of_app. auto.
Qed.

(** X11 for [results/b.json] among a folder marker, a text file and two
    analysis files. *)
Lemma X11_loaded_keys_witness :
  DownloadFile Downloader.BUCKET_NAME "results/b.json"
    (Downloader.local_filename "results/b.json")
    ∈ s3_calls (Downloader.fetch_s3_results s3_mixed (boot fs_used)).2.
Proof.
  apply (X11_loaded_keys_are_downloaded scenario_loads s3_mixed fs_empty fs_used
           [obj_marker; obj_a; obj_notes; obj_b] "results/b.json").
  - reflexivity.
  - intros obj Hobj Hkey.
    repeat (apply elem_of_cons in Hobj as [->|Hobj]; [by vm_compute; eauto|]).
    by apply elem_of_nil in Hobj.
  - rewrite (loader_run scenario_loads). vm_compute.
    do 2 apply list_elem_of_further. apply list_elem_of_here.
Defined.

(** X12. A Loader run that returns a table has fetched each listed
    [.json] object exactly once, in listing order, after a single listing
    call, and has printed, in this order: its opening line, one line per
    object, the confirmation, the first rows of the table, the column
    heading, the column names and the line naming the saved file. *)
Theorem X12_loader_fetches_each_once
    (json_loads : string → option pyval) (s3 : s3_service) (fs0 : filesystem)
    (contents : list s3_object) (df : DataFrame) (w : world) :
  list_objects_v2 s3 Loader.S3_BUCKET Loader.RESULTS_PREFIX
    = Some {| Contents := Some contents |} →
  Loader.load_analysis_to_pandas json_loads s3 (boot fs0) = (Ok df, w) →
  s3_calls w
  = ListObjectsV2 Loader.S3_BUCKET Loader.RESULTS_PREFIX
    :: (load_call <$> json_objects contents)
  ∧ stdout w
    = Text "Fetching analysis files from S3..."
      :: (Text ∘ load_line <$> json_objects contents)
      ++ [Text (Loader.nl +:+ "✅ Loaded analysis data into pandas");
          Frame (Pd.head df);
          Text (Loader.nl +:+ "Columns:");
          Index (columns df);
          Text (Loader.nl +:+ "Saved all_drum_analysis.csv")].
Proof.
  intros Hlist. rewrite loader_run Hlist /=.
  destruct (records_of json_loads s3 (json_objects contents)) as [e|ds] eqn:Hds;
    [done|].
  intros [= <- <-]. unfold s3_calls, stdout. csimpl.
  destruct (loader_trace_complete json_loads s3 _ _ Hds) as [Hcalls Hprints].
  rewrite !omap_app Hcalls Hprints. csimpl. by rewrite app_nil_r.
Qed.

(** X12 on the scenario bucket. *)
Lemma X12_loader_fetches_witness :
  s3_calls (Loader.load_analysis_to_pandas scenario_loads s3_scenario
              (boot fs_empty)).2
  = ListObjectsV2 Loader.S3_BUCKET Loader.RESULTS_PREFIX
    :: (load_call <$> json_objects [obj_a; obj_b; obj_marker])
  ∧ stdout (Loader.load_analysis_to_pandas scenario_loads s3_scenario
              (boot fs_empty)).2
    = Text "Fetching analysis files from S3..."
      :: (Text ∘ load_line <$> json_objects [obj_a; obj_b; obj_marker])
      ++ [Text (Loader.nl +:+ "✅ Loaded analysis data into pandas");
          Frame (Pd.head table_scenario);
          Text (Loader.nl +:+ "Columns:");
          Index (columns table_scenario);
          Text (Loader.nl +:+ "Saved all_drum_analysis.csv")].
Proof.
  apply (X12_loader_fetches_each_once scenario_loads s3_scenario fs_empty
           [obj_a; obj_b; obj_marker]).
  - reflexivity.
  - vm_compute. reflexivity.
Defined.

(** ** The version check *)

Section FfmpegFacts.

(** The first line [splitlines] finds is the text up to the first line
    break. *)
Lemma splitlines_go_first (line s : Ffmpeg.text) :
  Forall (λ c, Ffmpeg.is_linebreak c = false) line →
  line ≠ [] ∨ s ≠ [] →
  ∃ first others rest,
    Ffmpeg.splitlines_go line s = first :: others
    ∧ Forall (λ c, Ffmpeg.is_linebreak c = false) first
    ∧ line ++ s = first ++ rest
    ∧ (rest = [] ∨ ∃ c rest', rest = c :: rest' ∧ Ffmpeg.is_linebreak c = true).
Proof.
  revert line. induction s as [|c s IH]; intros line Hline Hne; simpl.
  - destruct Hne as [Hne|Hne]; [|done].
    rewrite bool_decide_eq_false_2; [done|].
    exists line, [], []. split_and!; [done..|by left].
  - destruct (Ffmpeg.is_linebreak c) eqn:Hc.
    + assert (∃ others, (match s with
                         | d :: rest' =>
                             if bool_decide (c = 13%N) && bool_decide (d = 10%N)
                             then line :: Ffmpeg.splitlines_go [] rest'
                             else line :: Ffmpeg.splitlines_go [] s
                         | [] => line :: Ffmpeg.splitlines_go [] s
                         end) = line :: others) as [others ->].
      { destruct s as [|d rest']; [by eexists|].
        destruct (bool_decide (c = 13%N) && bool_decide (d = 10%N)); by eexists. }
      exists line, others, (c :: s). split_and!; [done..|]. right. by exists c, s.
    + destruct (IH (line ++ [c])) as (first & others & rest & Hgo & Hfirst & Heq & Hrest).
      * apply Forall_app. split; [done|]. by apply Forall_singleton.
      * left. by destruct line.
      * exists first, others, rest. split_and!; [done..| |done].
        by rewrite -Heq -app_assoc.
Qed.

Lemma splitlines_first (s : Ffmpeg.text) :
  match Ffmpeg.splitlines s !! 0%nat with
  | None => s = []
  | Some first =>
      s ≠ []
      ∧ Forall (λ c, Ffmpeg.is_linebreak c = false) first
      ∧ ∃ rest, s = first ++ rest
                ∧ (rest = [] ∨ ∃ c rest', rest = c :: rest'
                                          ∧ Ffmpeg.is_linebreak c = true)
  end.
Proof.
  destruct s as [|c s]; [done|].
  destruct (splitlines_go_first [] (c :: s)) as
    (first & others & rest & Hgo & Hfirst & Heq & Hrest); [done|by right|].
  unfold Ffmpeg.splitlines. rewrite Hgo. simpl. split_and!; [done..|].
  by exists rest.
Qed.

End FfmpegFacts.

(** X13. When ffmpeg starts and writes something to its standard
    output, the version check prints exactly one line and raises nothing,
    whatever exit status ffmpeg gave: the line is the output up to its
    first line break, holds no line break itself, and is the whole output
    when there is no line break. *)
Theorem X13_ffmpeg_prints_first_line
    (subprocess_run : list string → Ffmpeg.run_outcome)
    (result : Ffmpeg.CompletedProcess) :
  subprocess_run ["ffmpeg"; "-version"] = Ffmpeg.Returns result →
  Ffmpeg.stdout result ≠ [] →
  ∃ first rest,
    Ffmpeg.test_ffmpeg subprocess_run
      = {| Ffmpeg.printed_lines := [first]; Ffmpeg.raised := None |}
    ∧ Ffmpeg.stdout result = first ++ rest
    ∧ Forall (λ c, Ffmpeg.is_linebreak c = false) first
    ∧ (rest = [] ∨ ∃ c rest', rest = c :: rest'
                              ∧ Ffmpeg.is_linebreak c = true).
Proof.
  intros Hrun Hout. unfold Ffmpeg.test_ffmpeg. rewrite Hrun.
  pose proof (splitlines_first (Ffmpeg.stdout result)) as H.
  destruct (Ffmpeg.splitlines (Ffmpeg.stdout result) !! 0%nat) as [first|];
    [|done].
  destruct H as (_ & Hfirst & rest & Heq & Hrest).
  by exists first, rest.
Qed.

(** X13 for an installed ffmpeg that prints two lines. *)
Lemma X13_ffmpeg_prints_witness :
  ∃ first rest,
    Ffmpeg.test_ffmpeg ffmpeg_installed
      = {| Ffmpeg.printed_lines := [first]; Ffmpeg.raised := None |}
    ∧ Ffmpeg.of_ascii ("ffmpeg version 6.0" +:+ nl +:+ "built with gcc" +:+ nl)
      = first ++ rest
    ∧ Forall (λ c, Ffmpeg.is_linebreak c = false) first
    ∧ (rest = [] ∨ ∃ c rest', rest = c :: rest'
                              ∧ Ffmpeg.is_linebreak c = true).
Proof.
  apply (X13_ffmpeg_prints_first_line ffmpeg_installed
           {| Ffmpeg.returncode := 0;
              Ffmpeg.stdout :=
                Ffmpeg.of_ascii
                  ("ffmpeg version 6.0" +:+ nl +:+ "built with gcc" +:+ nl);
              Ffmpeg.stderr := [] |}).
  - reflexivity.
  - done.
Defined.

(** X14. An exception of [subprocess.run] (no ffmpeg found, a file
    that may not be executed, output that cannot be decoded, or any
    other) is not caught: it ends the version check as it is.  The one
    failure the script adds is the [IndexError] of [splitlines()[0]],
    raised exactly when ffmpeg ran and wrote nothing to its standard
    output.  Nothing is printed in a failing run, and a run that does not
    fail prints one line; the exit status and the error output of ffmpeg
    play no part. *)
Theorem X14_ffmpeg_failures
    (subprocess_run : list string → Ffmpeg.run_outcome) :
  (∀ e, Ffmpeg.raised (Ffmpeg.test_ffmpeg subprocess_run)
          = Some (Ffmpeg.RunError e)
        ↔ subprocess_run ["ffmpeg"; "-version"] = Ffmpeg.Raises e)
  ∧ (Ffmpeg.raised (Ffmpeg.test_ffmpeg subprocess_run) = Some Ffmpeg.IndexError
     ↔ ∃ result, subprocess_run ["ffmpeg"; "-version"] = Ffmpeg.Returns result
                 ∧ Ffmpeg.stdout result = [])
  ∧ (Ffmpeg.raised (Ffmpeg.test_ffmpeg subprocess_run) = None
     ↔ ∃ first, Ffmpeg.printed_lines (Ffmpeg.test_ffmpeg subprocess_run)
                = [first])
  ∧ (Ffmpeg.raised (Ffmpeg.test_ffmpeg subprocess_run) ≠ None →
     Ffmpeg.printed_lines (Ffmpeg.test_ffmpeg subprocess_run) = []).
Proof.
  unfold Ffmpeg.test_ffmpeg.
  destruct (subprocess_run ["ffmpeg"; "-version"]) as [result|e0]; simpl.
  - pose proof (splitlines_first (Ffmpeg.stdout result)) as H.
    destruct (Ffmpeg.splitlines (Ffmpeg.stdout result) !! 0%nat) as [first|];
      simpl.
    + destruct H as (Hne & _). split_and!; [done| | |done].
      * split; [done|]. by intros (result' & [= <-] & Hout).
      * split; [by eauto|done].
    + split_and!; [done| | |done].
      * split; [by eauto|done].
      * split; [done|by intros [? ?]].
  - split_and!; [| | |done].
    + intros e. split; [by intros [= ->]|by intros [= ->]].
    + split; [done|by intros (? & ? & _)].
    + split; [done|by intros [? ?]].
Qed.

(** X14 for no ffmpeg on the path, a file that may not be executed and a
    program that starts, prints nothing and fails. *)
Lemma X14_ffmpeg_failures_witness :
  Ffmpeg.raised (Ffmpeg.test_ffmpeg ffmpeg_absent)
    = Some (Ffmpeg.RunError Ffmpeg.FileNotFoundError)
  ∧ Ffmpeg.raised (Ffmpeg.test_ffmpeg ffmpeg_not_executable)
    = Some (Ffmpeg.RunError Ffmpeg.PermissionError)
  ∧ Ffmpeg.raised (Ffmpeg.test_ffmpeg ffmpeg_silent) = Some Ffmpeg.IndexError
  ∧ Ffmpeg.printed_lines (Ffmpeg.test_ffmpeg ffmpeg_silent) = [].
Proof.
  destruct (X14_ffmpeg_failures ffmpeg_absent) as (Hmissing & _).
  destruct (X14_ffmpeg_failures ffmpeg_not_executable) as (Hperm & _).
  destruct (X14_ffmpeg_failures ffmpeg_silent) as (_ & Hindex & _ & Hnone).
  split_and!.
  - by apply Hmissing.
  - by apply Hperm.
  - apply Hindex. by eexists.
  - apply Hnone. done.
Defined.

(** ** Listings without anything to process *)

Lemma filter_none {A} (P : A → Prop) `{∀ x, Decision (P x)} (l : list A) :
  (∀ x, x ∈ l → ¬ P x) → filter P l = [].
Proof.
  induction l as [|a l IH]; intros Hall; [done|].
  rewrite filter_cons_False; [apply Hall, list_elem_of_here|].
  apply IH. intros x Hx. apply Hall. by apply list_elem_of_further.
Qed.

(** X15. When objects are listed but no key ends in [.json] (folder
    markers, text files), the Loader does not report that nothing was
    found: it fetches nothing, ends normally with a table without rows
    and columns, and writes that table to [all_drum_analysis.csv],
    replacing an earlier one. *)
Theorem X15_loader_without_json_keys
    (json_loads : string → option pyval) (s3 : s3_service) (fs0 : filesystem)
    (contents : list s3_object) :
  list_objects_v2 s3 Loader.S3_BUCKET Loader.RESULTS_PREFIX
    = Some {| Contents := Some contents |} →
  (∀ obj, obj ∈ contents → Str.endswith (Key obj) ".json" = false) →
  let '(r, w) := Loader.load_analysis_to_pandas json_loads s3 (boot fs0) in
  let empty_table := {| columns := []; values := [] |} in
  r = Ok empty_table ∧ exit_status r = 0%Z
  ∧ s3_calls w = [ListObjectsV2 Loader.S3_BUCKET Loader.RESULTS_PREFIX]
  ∧ ("❌ No analysis files found." ∉ stdout_text w)
  ∧ written w = ["all_drum_analysis.csv"]
  ∧ files (fs w) !! "all_drum_analysis.csv" = Some (CsvNoIndex empty_table).
Proof.
  intros Hlist Hnone.
  assert (Hq : json_objects contents = []).
  { apply filter_none. intros obj Hobj. rewrite (Hnone obj Hobj). done. }
  rewrite loader_run Hlist /= Hq. simpl. split_and!; try done.
  - rewrite !not_elem_of_cons. split_and!; [done..|]. apply not_elem_of_nil.
  - by rewrite lookup_insert_eq.
Qed.

(** X15 on a bucket that lists a text file only. *)
Lemma X15_loader_without_json_witness :
  let '(r, w) :=
    Loader.load_analysis_to_pandas scenario_loads
      (bucket (Some [obj_marker; obj_notes]) [("results/notes.txt", "tempo")])
      (boot fs_used) in
  let empty_table := {| columns := []; values := [] |} in
  r = Ok empty_table ∧ exit_status r = 0%Z
  ∧ s3_calls w = [ListObjectsV2 Loader.S3_BUCKET Loader.RESULTS_PREFIX]
  ∧ ("❌ No analysis files found." ∉ stdout_text w)
  ∧ written w = ["all_drum_analysis.csv"]
  ∧ files (fs w) !! "all_drum_analysis.csv" = Some (CsvNoIndex empty_table).
Proof.
  apply (X15_loader_without_json_keys scenario_loads
           (bucket (Some [obj_marker; obj_notes]) [("results/notes.txt", "tempo")])
           fs_used [obj_marker; obj_notes]).
  - reflexivity.
  - intros obj Hobj.
    repeat (apply elem_of_cons in Hobj as [->|Hobj]; [reflexivity|]).
    by apply elem_of_nil in Hobj.
Defined.

(** X16. When objects are listed but every key ends in [/], the
    Downloader does not report that nothing was found: it downloads
    nothing, leaves every file as it was and ends normally after printing
    its completion line. *)
Theorem X16_downloader_with_folder_markers_only
    (s3 : s3_service) (fs0 : filesystem) (contents : list s3_object) :
  list_objects_v2 s3 Downloader.BUCKET_NAME Downloader.S3_PREFIX
    = Some {| Contents := Some contents |} →
  (∀ obj, obj ∈ contents → Str.endswith (Key obj) "/" = true) →
  let '(r, w) := Downloader.fetch_s3_results s3 (boot fs0) in
  r = Ok tt ∧ exit_status r = 0%Z
  ∧ s3_calls w = [ListObjectsV2 Downloader.BUCKET_NAME Downloader.S3_PREFIX]
  ∧ stdout_text w = ["Fetching list of analysis files from S3...";
                     "✅ All analysis files downloaded successfully."]
  ∧ written w = [] ∧ files (fs w) = files fs0.
Proof.
  intros Hlist Hall.
  assert (Hq : non_folders contents = []).
  { apply filter_none. intros obj Hobj. rewrite (Hall obj Hobj). done. }
  rewrite downloader_run Hlist /= Hq. simpl. done.
Qed.

(** X16 on a bucket that lists two folder markers. *)
Lemma X16_downloader_with_folder_markers_witness :
  let '(r, w) :=
    Downloader.fetch_s3_results
      (bucket (Some [obj_marker; {| Key := "results/old/"; LastModified := 5 |}])
         [("results/", "")])
      (boot fs_used) in
  r = Ok tt ∧ exit_status r = 0%Z
  ∧ s3_calls w = [ListObjectsV2 Downloader.BUCKET_NAME Downloader.S3_PREFIX]
  ∧ stdout_text w = ["Fetching list of analysis files from S3...";
                     "✅ All analysis files downloaded successfully."]
  ∧ written w = [] ∧ files (fs w) = files fs_used.
Proof.
  apply (X16_downloader_with_folder_markers_only
           (bucket (Some [obj_marker; {| Key := "results/old/"; LastModified := 5 |}])
              [("results/", "")])
           fs_used [obj_marker; {| Key := "results/old/"; LastModified := 5 |}]).
  - reflexivity.
  - intros obj Hobj.
    repeat (apply elem_of_cons in Hobj as [->|Hobj]; [reflexivity|]).
    by apply elem_of_nil in Hobj.
Defined.
